(** * n8n webhook chat: the transport and response-normalisation layer

    A shallow embedding of [services/webhookService.ts] ([sendToWebhook] and
    its helpers [blobToBase64] and [getExtensionFromMimeType]) together with
    the part of the browser platform the code talks to, and the properties of
    the exchange proved over it.

    Layout: JavaScript strings and values, the built-ins the service calls,
    the platform (fetch, FileReader, Date, JSON.parse) as an explicit
    environment, the service itself, then the theorems. *)

From Stdlib Require Import List NArith Bool Lia.
From Stdlib Require Strings.Byte.
From Stdlib Require DecimalN.
From Stdlib Require Import PeanoNat.
Import ListNotations.
Local Open Scope N_scope.

(** ** Strings

    A JavaScript string is a sequence of UTF-16 code units.  Literals are
    written between double quotes in scope [js]; only ASCII literals
    occur. *)

Definition JsString := list N.

Declare Scope js_scope.
Delimit Scope js_scope with js.
Bind Scope js_scope with JsString.

Inductive Literal := LNil | LCons (c : N) (r : Literal).

Fixpoint literal_of_bytes (l : list Byte.byte) : Literal :=
  match l with
  | [] => LNil
  | b :: r => LCons (Byte.to_N b) (literal_of_bytes r)
  end.

Fixpoint bytes_of_literal (s : Literal) : option (list Byte.byte) :=
  match s with
  | LNil => Some []
  | LCons c r =>
      match Byte.of_N c, bytes_of_literal r with
      | Some b, Some l => Some (b :: l)
      | _, _ => None
      end
  end.

#[warnings="-via-type-remapping,-via-type-mismatch"]
String Notation JsString literal_of_bytes bytes_of_literal
  (via Literal mapping [[nil] => LNil, [cons] => LCons]) : js_scope.

Local Open Scope js_scope.

Module Str.

Fixpoint eqb (a b : JsString) : bool :=
  match a, b with
  | [], [] => true
  | c :: a', d :: b' => (c =? d) && eqb a' b'
  | _, _ => false
  end.

(** A string is falsy exactly when it is empty. *)
Definition truthy (s : JsString) : bool :=
  match s with [] => false | _ :: _ => true end.

(** [s.startsWith(p)] *)
Fixpoint startsWith (s p : JsString) {struct p} : bool :=
  match p, s with
  | [], _ => true
  | c :: p', d :: s' => (c =? d) && startsWith s' p'
  | _ :: _, [] => false
  end.

(** [s.includes(sub)] *)
Fixpoint includes (s sub : JsString) : bool :=
  startsWith s sub ||
  match s with
  | [] => false
  | _ :: s' => includes s' sub
  end.

(** [s.split(sep)] for a separator of one code unit; never empty. *)
Fixpoint split (s : JsString) (sep : N) : list JsString :=
  match s with
  | [] => [[]]
  | c :: s' =>
      if c =? sep then [] :: split s' sep
      else match split s' sep with
           | h :: t => (c :: h) :: t
           | [] => [[c]]
           end
  end.

(** [s.replace(a, b)] with a one-unit string pattern: first occurrence. *)
Fixpoint replace_first (s : JsString) (a b : N) : JsString :=
  match s with
  | [] => []
  | c :: s' => if c =? a then b :: s' else c :: replace_first s' a b
  end.

(** [s.replace(/a/g, b)]: every occurrence. *)
Definition replace_all (s : JsString) (a b : N) : JsString :=
  map (fun c => if c =? a then b else c) s.

(** [s.slice(0, n)] *)
Definition slice0 (s : JsString) (n : nat) : JsString := firstn n s.

(** [toLowerCase] of one code unit.  Exact up to U+00FF, which is all a
    header value (a byte string) or a Blob type (printable ASCII) can
    hold; code units above are left alone. *)
Definition lower (c : N) : N :=
  if ((65 <=? c) && (c <=? 90)) ||
     ((192 <=? c) && (c <=? 222) && negb (c =? 215))
  then c + 32 else c.

Definition toLowerCase (s : JsString) : JsString := map lower s.

(** The two halves of a surrogate pair. *)
Definition isLead (c : N) : bool := (55296 <=? c) && (c <=? 56319).

Definition isTrail (c : N) : bool := (56320 <=? c) && (c <=? 57343).

(** [s.toWellFormed()], which is also how the platform turns a string
    into a USVString: a surrogate that is not half of a pair becomes
    U+FFFD. *)
Fixpoint toWellFormed (s : JsString) : JsString :=
  match s with
  | [] => []
  | c :: r =>
      if isLead c then
        match r with
        | d :: r' =>
            if isTrail d then c :: d :: toWellFormed r'
            else 65533 :: toWellFormed r
        | [] => [65533]
        end
      else if isTrail c then 65533 :: toWellFormed r
      else c :: toWellFormed r
  end.

(** WhiteSpace and LineTerminator code points of ECMA-262, the ones
    [trim] removes. *)
Definition isWhiteSpace (c : N) : bool :=
  ((9 <=? c) && (c <=? 13)) || (c =? 32) || (c =? 160) || (c =? 5760) ||
  ((8192 <=? c) && (c <=? 8202)) || (c =? 8232) || (c =? 8233) ||
  (c =? 8239) || (c =? 8287) || (c =? 12288) || (c =? 65279).

Fixpoint trimStart (s : JsString) : JsString :=
  match s with
  | [] => []
  | c :: s' => if isWhiteSpace c then trimStart s' else s
  end.

Definition trimEnd (s : JsString) : JsString := rev (trimStart (rev s)).

Definition trim (s : JsString) : JsString := trimEnd (trimStart s).

(** Number-to-string of a non-negative integer: its decimal digits. *)
Fixpoint digits (u : Decimal.uint) : JsString :=
  match u with
  | Decimal.Nil => []
  | Decimal.D0 r => 48 :: digits r
  | Decimal.D1 r => 49 :: digits r
  | Decimal.D2 r => 50 :: digits r
  | Decimal.D3 r => 51 :: digits r
  | Decimal.D4 r => 52 :: digits r
  | Decimal.D5 r => 53 :: digits r
  | Decimal.D6 r => 54 :: digits r
  | Decimal.D7 r => 55 :: digits r
  | Decimal.D8 r => 56 :: digits r
  | Decimal.D9 r => 57 :: digits r
  end.

Definition ofNumber (n : N) : JsString := digits (N.to_uint n).

(** [sub] occurs in [s]. *)
Definition occursIn (sub s : JsString) : Prop :=
  exists before after, s = before ++ sub ++ after.

(** [s] ends with [suffix]. *)
Definition endsWith (s suffix : JsString) : Prop :=
  exists before, s = before ++ suffix.

End Str.

Infix "+++" := (@app N) (at level 60, right associativity) : js_scope.

(** ** Values and exceptions *)

(** What [JSON.parse] can return, plus [undefined].  A number keeps its
    literal: the service never looks inside one.  An object is its member
    list; a later member of the same name overrides an earlier one. *)
#[warnings="-register-all"]
Inductive JsValue :=
| VUndefined
| VNull
| VBool (b : bool)
| VNum (literal : JsString)
| VStr (s : JsString)
| VArr (items : list JsValue)
| VObj (members : list (JsString * JsValue)).

(** What can be thrown, or a promise rejected with.  [ProgressEvent] is the
    event object a failing FileReader hands to its [onerror] handler. *)
Inductive ErrorClass :=
| Error | TypeError | SyntaxError | URIError | DOMException | ProgressEvent.

Record JsExn := Exn { exn_class : ErrorClass; exn_message : JsString }.

(** [e instanceof TypeError] *)
Definition instanceofTypeError (e : JsExn) : bool :=
  match exn_class e with TypeError => true | _ => false end.

Module Value.

(** ToBoolean.  For a number literal: some mantissa digit is not zero (a
    literal so small that it rounds to zero is not told apart; the service
    tests a number's truthiness only next to a test that no number passes,
    see [truthy_isArray] and the string test of line 177). *)
Fixpoint mantissaNonZero (l : JsString) : bool :=
  match l with
  | [] => false
  | c :: r =>
      if (c =? 101) || (c =? 69) then false
      else ((49 <=? c) && (c <=? 57)) || mantissaNonZero r
  end.

Definition truthy (v : JsValue) : bool :=
  match v with
  | VUndefined | VNull => false
  | VBool b => b
  | VNum l => mantissaNonZero l
  | VStr s => Str.truthy s
  | VArr _ | VObj _ => true
  end.

(** [Array.isArray(v)] *)
Definition isArray (v : JsValue) : bool :=
  match v with VArr _ => true | _ => false end.

(** [typeof v === 'string'] *)
Definition isString (v : JsValue) : bool :=
  match v with VStr _ => true | _ => false end.

Fixpoint lookup (members : list (JsString * JsValue)) (k : JsString)
  : option JsValue :=
  match members with
  | [] => None
  | (k', v) :: r =>
      match lookup r k with
      | Some v' => Some v'
      | None => if Str.eqb k' k then Some v else None
      end
  end.

(** The member [k] of an object value, if it has one. *)
Definition field (v : JsValue) (k : JsString) : option JsValue :=
  match v with
  | VObj members => lookup members k
  | _ => None
  end.

(** [v.k] for a name [k] that no built-in prototype defines (the service
    reads [responses] and [text]): the member of an object, [undefined]
    where there is none, and a TypeError on [null] and [undefined]. *)
Definition get (v : JsValue) (k : JsString) : JsExn + JsValue :=
  match v with
  | VUndefined | VNull =>
      inl (Exn TypeError "Cannot read properties of null")
  | _ =>
      match field v k with
      | Some x => inr x
      | None => inr VUndefined
      end
  end.

(** The elements of an array value. *)
Definition elements (v : JsValue) : list JsValue :=
  match v with VArr items => items | _ => [] end.

End Value.

(** ** Base64 and [btoa] *)

Module Base64.

Definition alphabet (n : N) : N :=
  if n <? 26 then 65 + n
  else if n <? 52 then 97 + (n - 26)
  else if n <? 62 then 48 + (n - 52)
  else if n =? 62 then 43 else 47.

Definition pad : N := 61.

Fixpoint encodeN (bs : list N) : JsString :=
  match bs with
  | [] => []
  | [a] =>
      [alphabet (N.shiftr a 2);
       alphabet (N.shiftl (N.land a 3) 4); pad; pad]
  | [a; b] =>
      [alphabet (N.shiftr a 2);
       alphabet (N.lor (N.shiftl (N.land a 3) 4) (N.shiftr b 4));
       alphabet (N.shiftl (N.land b 15) 2); pad]
  | a :: b :: c :: rest =>
      alphabet (N.shiftr a 2)
      :: alphabet (N.lor (N.shiftl (N.land a 3) 4) (N.shiftr b 4))
      :: alphabet (N.lor (N.shiftl (N.land b 15) 2) (N.shiftr c 6))
      :: alphabet (N.land c 63)
      :: encodeN rest
  end.

(** The encoding of a blob's bytes. *)
Definition encode (bs : list Byte.byte) : JsString :=
  encodeN (map Byte.to_N bs).

(** A binary string: every code unit is at most U+00FF. *)
Definition latin1 (s : JsString) : bool := forallb (fun c => c <=? 255) s.

(** [btoa(s)]: the code units of a binary string taken as bytes;
    InvalidCharacterError on any other string. *)
Definition btoa (s : JsString) : JsExn + JsString :=
  if latin1 s then inr (encodeN s)
  else inl (Exn DOMException "InvalidCharacterError").

End Base64.
(** ** [decodeURIComponent] *)

Module Uri.

Definition hex (c : N) : option N :=
  if (48 <=? c) && (c <=? 57) then Some (c - 48)
  else if (65 <=? c) && (c <=? 70) then Some (c - 55)
  else if (97 <=? c) && (c <=? 102) then Some (c - 87)
  else None.

(** A UTF-8 sequence under way: continuation octets still expected, the
    bits gathered so far, the least code point the sequence may encode. *)
Record Pending := { more : nat; bits : N; least : N }.

Definition utf16 (cp : N) : JsString :=
  if cp <? 65536 then [cp]
  else [55296 + N.shiftr (cp - 65536) 10;
        56320 + N.land (cp - 65536) 1023].

Definition scalar (q : Pending) (cp : N) : bool :=
  (least q <=? cp) && (cp <=? 1114111) &&
  negb ((55296 <=? cp) && (cp <=? 57343)).

(** What one escaped octet contributes; [None] is a malformed sequence. *)
Definition octet (p : option Pending) (b : N)
  : option (JsString * option Pending) :=
  match p with
  | None =>
      if b <? 128 then Some ([b], None)
      else if (192 <=? b) && (b <? 224)
      then Some ([], Some {| more := 1; bits := N.land b 31; least := 128 |})
      else if (224 <=? b) && (b <? 240)
      then Some ([], Some {| more := 2; bits := N.land b 15; least := 2048 |})
      else if (240 <=? b) && (b <? 248)
      then Some ([], Some {| more := 3; bits := N.land b 7; least := 65536 |})
      else None
  | Some q =>
      if (128 <=? b) && (b <? 192) then
        let cp := N.lor (N.shiftl (bits q) 6) (N.land b 63) in
        match more q with
        | O => None
        | S O => if scalar q cp then Some (utf16 cp, None) else None
        | S n => Some ([], Some {| more := n; bits := cp; least := least q |})
        end
      else None
  end.

Fixpoint decode (p : option Pending) (s : JsString) : option JsString :=
  match s with
  | [] => match p with None => Some [] | Some _ => None end
  | c :: r =>
      if c =? 37 then
        match r with
        | h :: l :: r' =>
            match hex h, hex l with
            | Some a, Some b =>
                match octet p (16 * a + b) with
                | Some (out, p') =>
                    match decode p' r' with
                    | Some t => Some (out ++ t)
                    | None => None
                    end
                | None => None
                end
            | _, _ => None
            end
        | _ => None
        end
      else
        match p, decode None r with
        | None, Some t => Some (c :: t)
        | _, _ => None
        end
  end.

(** [decodeURIComponent(s)]: throws URIError on a malformed escape. *)
Definition decodeURIComponent (s : JsString) : JsExn + JsString :=
  match decode None s with
  | Some t => inr t
  | None => inl (Exn URIError "URI malformed")
  end.

End Uri.

(** ** The regular expressions of the service *)

Module Regex.

Definition quote (c : N) : bool := (c =? 39) || (c =? 34).

(** What [.] refuses: the line terminators. *)
Definition lineTerminator (c : N) : bool :=
  (c =? 10) || (c =? 13) || (c =? 8232) || (c =? 8233).

(** [[^;=\n]*=]: the class cannot cross [=], so the star stops at the
    first of [;], [=], newline, and only [=] lets the match go on.
    Returns what follows the [=]. *)
Fixpoint upToEquals (s : JsString) : option JsString :=
  match s with
  | [] => None
  | c :: r =>
      if c =? 61 then Some r
      else if (c =? 59) || (c =? 10) then None
      else upToEquals r
  end.

(** [.*?\2] after an opening quote [q]: the text up to the nearest [q],
    that quote included, with no line terminator before it. *)
Fixpoint quoted (q : N) (s : JsString) : option JsString :=
  match s with
  | [] => None
  | c :: r =>
      if c =? q then Some [c]
      else if lineTerminator c then None
      else match quoted q r with
           | Some t => Some (c :: t)
           | None => None
           end
  end.

(** [[^;\n]*]: the longest run free of [;] and newline. *)
Fixpoint bare (s : JsString) : JsString :=
  match s with
  | [] => []
  | c :: r => if (c =? 59) || (c =? 10) then [] else c :: bare r
  end.

(** Group 1 has two alternatives: a quote character (group 2), a lazy
    [.*?] and the same quote again; else the bare run [[^;\n]*]. *)
Definition group1 (s : JsString) : JsString :=
  match s with
  | q :: r =>
      if quote q then
        match quoted q r with
        | Some t => q :: t
        | None => bare s
        end
      else bare s
  | [] => []
  end.

Definition matchHere (s : JsString) : option JsString :=
  if Str.startsWith s "filename" then
    match upToEquals (skipn 8 s) with
    | Some r => Some (group1 r)
    | None => None
    end
  else None.

(** [filenameRegex.exec(s)]: the literal [filename], then [[^;=\n]*=],
    then group 1.  [None] when nothing matches, else [matches[1]] of
    the leftmost match (group 1 takes part in every match). *)
Fixpoint filenameRegex_exec (s : JsString) : option JsString :=
  match matchHere s with
  | Some g => Some g
  | None =>
      match s with
      | [] => None
      | _ :: r => filenameRegex_exec r
      end
  end.

(** [s.replace(/Q/g, '')]: every quote character removed. *)
Definition stripQuotes (s : JsString) : JsString :=
  filter (fun c => negb (quote c)) s.

End Regex.

(** ** A reference [JSON.parse]

    The theorems below hold for whatever parser the platform supplies; this
    one, written after the JSON grammar, runs the concrete exchanges.
    [None] stands for the SyntaxError. *)

Module Json.

Definition isWs (c : N) : bool :=
  (c =? 32) || (c =? 9) || (c =? 10) || (c =? 13).

Fixpoint skipWs (s : JsString) : JsString :=
  match s with
  | [] => []
  | c :: r => if isWs c then skipWs r else s
  end.

Definition isDigit (c : N) : bool := (48 <=? c) && (c <=? 57).

(** The longest run of digits and what follows it. *)
Fixpoint digitRun (s : JsString) : JsString * JsString :=
  match s with
  | [] => ([], [])
  | c :: r =>
      if isDigit c then let (d, t) := digitRun r in (c :: d, t)
      else ([], s)
  end.

Definition someDigits (s : JsString) : option (JsString * JsString) :=
  match digitRun s with
  | ([], _) => None
  | (d, t) => Some (d, t)
  end.

Definition fraction (s : JsString) : option (JsString * JsString) :=
  match s with
  | c :: r =>
      if c =? 46 then
        match someDigits r with
        | Some (d, t) => Some (c :: d, t)
        | None => None
        end
      else Some ([], s)
  | [] => Some ([], s)
  end.

Definition exponent (s : JsString) : option (JsString * JsString) :=
  match s with
  | c :: r =>
      if (c =? 101) || (c =? 69) then
        let (sign, r') :=
          match r with
          | g :: t => if (g =? 43) || (g =? 45) then ([g], t) else ([], r)
          | [] => ([], r)
          end in
        match someDigits r' with
        | Some (d, t) => Some (c :: sign ++ d, t)
        | None => None
        end
      else Some ([], s)
  | [] => Some ([], s)
  end.

Definition integer (s : JsString) : option (JsString * JsString) :=
  match s with
  | c :: r => if c =? 48 then Some ([c], r) else someDigits s
  | [] => None
  end.

Definition number (s : JsString) : option (JsValue * JsString) :=
  let (sign, s1) :=
    match s with
    | c :: r => if c =? 45 then ([c], r) else ([], s)
    | [] => ([], s)
    end in
  match integer s1 with
  | Some (i, s2) =>
      match fraction s2 with
      | Some (f, s3) =>
          match exponent s3 with
          | Some (e, s4) => Some (VNum (sign ++ i ++ f ++ e), s4)
          | None => None
          end
      | None => None
      end
  | None => None
  end.

Definition escape (c : N) : option N :=
  if (c =? 34) || (c =? 92) || (c =? 47) then Some c
  else if c =? 98 then Some 8
  else if c =? 102 then Some 12
  else if c =? 110 then Some 10
  else if c =? 114 then Some 13
  else if c =? 116 then Some 9
  else None.

Definition hex4 (a b c d : N) : option N :=
  match Uri.hex a, Uri.hex b, Uri.hex c, Uri.hex d with
  | Some x, Some y, Some z, Some w => Some (4096 * x + 256 * y + 16 * z + w)
  | _, _, _, _ => None
  end.

Definition push (c : option N) (t : option (JsString * JsString))
  : option (JsString * JsString) :=
  match c, t with
  | Some c, Some (str, rest) => Some (c :: str, rest)
  | _, _ => None
  end.

(** The characters of a string after its opening quote, up to the
    closing one. *)
Fixpoint chars (s : JsString) : option (JsString * JsString) :=
  match s with
  | [] => None
  | c :: r =>
      if c =? 34 then Some ([], r)
      else if c =? 92 then
        match r with
        | e :: r1 =>
            if e =? 117 then
              match r1 with
              | a :: b :: x :: y :: r2 => push (hex4 a b x y) (chars r2)
              | _ => None
              end
            else push (escape e) (chars r1)
        | [] => None
        end
      else if c <? 32 then None
      else push (Some c) (chars r)
  end.

Fixpoint value (fuel : nat) (s : JsString) {struct fuel}
  : option (JsValue * JsString) :=
  match fuel with
  | O => None
  | S n =>
      match s with
      | [] => None
      | c :: r =>
          if c =? 123 then
            match skipWs r with
            | d :: t =>
                if d =? 125 then Some (VObj [], t)
                else match members n (d :: t) with
                     | Some (m, t') => Some (VObj m, t')
                     | None => None
                     end
            | [] => None
            end
          else if c =? 91 then
            match skipWs r with
            | d :: t =>
                if d =? 93 then Some (VArr [], t)
                else match elements n (d :: t) with
                     | Some (l, t') => Some (VArr l, t')
                     | None => None
                     end
            | [] => None
            end
          else if c =? 34 then
            match chars r with
            | Some (str, t) => Some (VStr str, t)
            | None => None
            end
          else if Str.startsWith s "true" then Some (VBool true, skipn 4 s)
          else if Str.startsWith s "false" then Some (VBool false, skipn 5 s)
          else if Str.startsWith s "null" then Some (VNull, skipn 4 s)
          else number s
      end
  end

with elements (fuel : nat) (s : JsString) {struct fuel}
  : option (list JsValue * JsString) :=
  match fuel with
  | O => None
  | S n =>
      match value n (skipWs s) with
      | Some (v, r) =>
          match skipWs r with
          | d :: t =>
              if d =? 44 then
                match elements n t with
                | Some (l, t') => Some (v :: l, t')
                | None => None
                end
              else if d =? 93 then Some ([v], t)
              else None
          | [] => None
          end
      | None => None
      end
  end

with members (fuel : nat) (s : JsString) {struct fuel}
  : option (list (JsString * JsValue) * JsString) :=
  match fuel with
  | O => None
  | S n =>
      match skipWs s with
      | q :: r =>
          if q =? 34 then
            match chars r with
            | Some (k, r1) =>
                match skipWs r1 with
                | colon :: r2 =>
                    if colon =? 58 then
                      match value n (skipWs r2) with
                      | Some (v, r3) =>
                          match skipWs r3 with
                          | d :: t =>
                              if d =? 44 then
                                match members n t with
                                | Some (m, t') => Some ((k, v) :: m, t')
                                | None => None
                                end
                              else if d =? 125 then Some ([(k, v)], t)
                              else None
                          | [] => None
                          end
                      | None => None
                      end
                    else None
                | [] => None
                end
            | None => None
            end
          else None
      | [] => None
      end
  end.

(** The whole text must be one value between optional white space.  The
    text's length bounds the depth of the recursion. *)
Definition parse (s : JsString) : option JsValue :=
  match value (S (length s)) (skipWs s) with
  | Some (v, r) =>
      match skipWs r with
      | [] => Some v
      | _ :: _ => None
      end
  | None => None
  end.

End Json.

(** ** Plain objects used as string maps

    [headers] and [mimeMap] are object literals, so reads and writes go
    through [Object.prototype]. *)

Module Obj.

Definition t := list (JsString * JsString).

(** The property names [Object.prototype] carries. *)
Definition prototypeNames : list JsString :=
  ["constructor"; "__proto__"; "hasOwnProperty"; "isPrototypeOf";
   "propertyIsEnumerable"; "toLocaleString"; "toString"; "valueOf";
   "__defineGetter__"; "__defineSetter__"; "__lookupGetter__";
   "__lookupSetter__"].

Inductive Found :=
| Own (v : JsString)
| Inherited (name : JsString)
| Absent.

Fixpoint own (o : t) (k : JsString) : option JsString :=
  match o with
  | [] => None
  | (k', v) :: r => if Str.eqb k' k then Some v else own r k
  end.

(** [o[k]] *)
Definition get (o : t) (k : JsString) : Found :=
  match own o k with
  | Some v => Own v
  | None => if existsb (Str.eqb k) prototypeNames then Inherited k else Absent
  end.

Fixpoint update (o : t) (k v : JsString) : t :=
  match o with
  | [] => [(k, v)]
  | (k', v') :: r =>
      if Str.eqb k' k then (k', v) :: r else (k', v') :: update r k v
  end.

(** [o[k] = v] for a string [v].  The name [__proto__] reaches the
    inherited setter, which ignores a value that is not an object; any
    other name becomes (or overwrites) an own member. *)
Definition set (o : t) (k v : JsString) : t :=
  if Str.eqb k "__proto__" then o else update o k v.

(** How a template literal renders an inherited built-in. *)
Definition show (name : JsString) : JsString :=
  if Str.eqb name "__proto__" then "[object Object]"
  else ("function "
        +++ (if Str.eqb name "constructor" then "Object" else name)
        +++ "() { [native code] }").

End Obj.

(** ** The platform *)

Record Blob := { blob_bytes : list Byte.byte; blob_type : JsString }.

Definition blob_size (b : Blob) : N := N.of_nat (length (blob_bytes b)).

Record File :=
  { file_name : JsString; file_type : JsString; file_bytes : list Byte.byte }.

Inductive FormValue :=
| FormString (s : JsString)
| FormFile (f : File).

Definition FormData := list (JsString * FormValue).

(** [formData.append(name, value)].  The name and a string value are
    USVStrings: they are stored converted; a File is stored as it is. *)
Definition append (fd : FormData) (name : JsString) (v : FormValue)
  : FormData :=
  fd ++ [(Str.toWellFormed name,
          match v with
          | FormString s => FormString (Str.toWellFormed s)
          | FormFile f => FormFile f
          end)].

(** What [fetch] writes for a [FormData] body: the parts of the
    multipart/form-data encoding, in order.  The boundary and the UTF-8
    bytes of each part are not spelled out. *)
Module Multipart.

(** The first step of the encoding: a CR that no LF follows and an LF
    that no CR precedes become CR LF. *)
Fixpoint newlines (s : JsString) : JsString :=
  match s with
  | [] => []
  | c :: r =>
      if c =? 13 then
        match r with
        | d :: r' =>
            if d =? 10 then 13 :: 10 :: newlines r'
            else 13 :: 10 :: newlines r
        | [] => [13; 10]
        end
      else if c =? 10 then 13 :: 10 :: newlines r
      else c :: newlines r
  end.

(** A name or a file name in the header of its part: LF, CR and the
    double quote are percent-escaped, nothing else. *)
Definition escape (s : JsString) : JsString :=
  flat_map (fun c => if c =? 10 then "%0A"
                     else if c =? 13 then "%0D"
                     else if c =? 34 then "%22"
                     else [c]) s.

(** A part: a field with its text, or a field with a file and the file
    name its header gives. *)
Inductive Part :=
| Field (name value : JsString)
| FileField (name fileName : JsString) (file : File).

Definition part (entry : JsString * FormValue) : Part :=
  match entry with
  | (name, FormString s) => Field (escape (newlines name)) (newlines s)
  | (name, FormFile f) =>
      FileField (escape (newlines name)) (escape (file_name f)) f
  end.

Definition encode (fd : FormData) : list Part := map part fd.

(** The text reaches the wire as it is: no lone surrogate to replace, no
    bare CR or LF to complete. *)
Definition sentAsIs (s : JsString) : bool :=
  Str.eqb (Str.toWellFormed s) s && Str.eqb (newlines s) s.

End Multipart.

Record Request :=
  { req_url : JsString;
    req_method : JsString;
    req_body : FormData;
    req_headers : Obj.t }.

(** A response as the service sees it: the status line, [headers.get], and
    how reading the body as text or as a blob turns out. *)
Record Response :=
  { status : N;
    statusText : JsString;
    headers_get : JsString -> option JsString;
    response_text : JsExn + JsString;
    response_blob : JsExn + Blob }.

(** [response.ok] *)
Definition ok (r : Response) : bool :=
  (200 <=? status r) && (status r <=? 299).

(** A FileReader run: whether the error event fires, and [reader.result]
    when loadend fires. *)
Record ReaderOutcome :=
  { reader_error : bool; reader_result : option JsString }.

Record Platform :=
  { fetch : Request -> JsExn + Response;
    readAsDataURL : Blob -> ReaderOutcome;
    now_toISOString : JsString;
    JSON_parse : JsString -> option JsValue }.

(** The platform calls a run makes, in order. *)
Inductive Event :=
| Fetch (r : Request)
| ReadText
| ReadBlob
| ReadAsDataURL (b : Blob)
| DateNow.

(** ** Computations: a log of platform calls, and exceptions *)

Definition IO (A : Type) : Type := list Event -> (JsExn + A) * list Event.

Definition ret {A} (a : A) : IO A := fun log => (inr a, log).

Definition throw {A} (e : JsExn) : IO A := fun log => (inl e, log).

Definition bind {A B} (m : IO A) (k : A -> IO B) : IO B :=
  fun log =>
    match m log with
    | (inr a, log') => k a log'
    | (inl e, log') => (inl e, log')
    end.

Definition try_catch {A} (m : IO A) (handler : JsExn -> IO A) : IO A :=
  fun log =>
    match m log with
    | (inl e, log') => handler e log'
    | done => done
    end.

(** A platform call: logged, then its outcome. *)
Definition call {A} (e : Event) (outcome : JsExn + A) : IO A :=
  fun log => (outcome, log ++ [e]).

Definition lift {A} (outcome : JsExn + A) : IO A := fun log => (outcome, log).

Notation "x <- m ;; k" := (bind m (fun x => k))
  (at level 61, m at next level, right associativity).

Notation "'try' m 'catch' x => h" := (try_catch m (fun x => h))
  (at level 10, m at level 200, x name, h at level 200).

Definition outcome {A} (m : IO A) : JsExn + A := fst (m []).
Definition log {A} (m : IO A) : list Event := snd (m []).

(** ** The service: [services/webhookService.ts] *)

Inductive AuthConfig :=
| NoAuth
| BasicAuth (username password : option JsString)
| HeaderAuth (headerName headerValue : option JsString)
| JwtAuth (token : option JsString).

(** Truthiness of an optional string field: set and not empty. *)
Definition given (f : option JsString) : bool :=
  match f with
  | Some s => Str.truthy s
  | None => false
  end.

(** [f || ''] *)
Definition orEmpty (f : option JsString) : JsString :=
  match f with
  | Some s => s
  | None => []
  end.

(** [a || b] on strings *)
Definition orElse (a b : JsString) : JsString :=
  if Str.truthy a then a else b.

Definition mimeMap : Obj.t :=
  [("application/pdf", "pdf");
   ("application/zip", "zip");
   ("application/msword", "doc");
   ("application/vnd.openxmlformats-officedocument.wordprocessingml.document",
    "docx");
   ("application/vnd.ms-excel", "xls");
   ("application/vnd.openxmlformats-officedocument.spreadsheetml.sheet",
    "xlsx");
   ("application/vnd.ms-powerpoint", "ppt");
   ("application/vnd.openxmlformats-officedocument.presentationml.presentation",
    "pptx");
   ("text/plain", "txt");
   ("text/csv", "csv");
   ("text/html", "html");
   ("image/jpeg", "jpg");
   ("image/png", "png");
   ("image/gif", "gif");
   ("image/svg+xml", "svg");
   ("audio/mpeg", "mp3");
   ("audio/wav", "wav");
   ("audio/webm", "webm");
   ("video/mp4", "mp4");
   ("video/webm", "webm")].

(** What [getExtensionFromMimeType] hands back: a string, or the built-in it
    found up the prototype chain of [mimeMap]. *)
Inductive Extension :=
| Ext (s : JsString)
| ExtBuiltin (name : JsString).

(** [`${extension}`] *)
Definition showExtension (e : Extension) : JsString :=
  match e with
  | Ext s => s
  | ExtBuiltin name => Obj.show name
  end.

Definition getExtensionFromMimeType (mimeType : JsString) : Extension :=
  if negb (Str.truthy mimeType) then Ext "bin"
  else
    let normalizedMimeType :=
      hd [] (Str.split (Str.toLowerCase mimeType) 59) in
    match Obj.get mimeMap normalizedMimeType with
    | Obj.Own e => Ext e
    | Obj.Inherited name => ExtBuiltin name
    | Obj.Absent =>
        let parts := Str.split normalizedMimeType 47 in
        match nth_error parts 1 with
        | Some subType =>
            if Str.truthy subType then Ext (hd [] (Str.split subType 43))
            else Ext "bin"
        | None => Ext "bin"
        end
    end.

(** [iso.slice(0, 19).replace('T', '_').replace(/:/g, '-')] *)
Definition stamp (iso : JsString) : JsString :=
  Str.replace_all (Str.replace_first (Str.slice0 iso 19) 84 95) 58 45.

Definition getMessageType (mimeType : JsString) : JsString :=
  if Str.startsWith mimeType "image/" then "image"
  else if Str.startsWith mimeType "video/" then "video"
  else if Str.startsWith mimeType "audio/" then "audio"
  else "file".

(** Lines 74 to 97: the [headers] object after the [switch].  [btoa] may
    throw, and this runs before the [try]. *)
Definition authHeaders (authConfig : AuthConfig) : JsExn + Obj.t :=
  match authConfig with
  | BasicAuth username password =>
      if given username || given password then
        match Base64.btoa (orEmpty username +++ ":" +++ orEmpty password)
        with
        | inr credentials =>
            inr (Obj.set [] "Authorization" ("Basic " +++ credentials))
        | inl e => inl e
        end
      else inr []
  | HeaderAuth headerName headerValue =>
      if given headerName && given headerValue
      then inr (Obj.set [] (orEmpty headerName) (orEmpty headerValue))
      else inr []
  | JwtAuth token =>
      if given token
      then inr (Obj.set [] "Authorization" ("Bearer " +++ orEmpty token))
      else inr []
  | NoAuth => inr []
  end.

(** [files.forEach((file, index) => ...)] over the form data. *)
Fixpoint forEach (files : list File) (index : N)
  (f : File -> N -> FormData -> FormData) (fd : FormData) : FormData :=
  match files with
  | [] => fd
  | file :: rest => forEach rest (index + 1) f (f file index fd)
  end.

(** Lines 66 to 72. *)
Definition buildFormData (text : JsString) (files : list File)
  (chatId : JsString) : FormData :=
  let formData := [] in
  let formData := append formData "text" (FormString text) in
  let formData := append formData "chatId" (FormString chatId) in
  forEach files 0
    (fun file index fd =>
       append fd ("file" +++ Str.ofNumber index) (FormFile file))
    formData.

(** The item [{ type: 'text', content: s }]. *)
Definition textItem (s : JsString) : JsValue :=
  VObj [("type", VStr "text"); ("content", VStr s)].

Definition invalidStructure : JsString :=
  "Invalid JSON structure from webhook. Expected { responses: [...] }, an array of responses, or { text: '...' }.".

Definition networkError : JsString :=
  "Network error or CORS issue. Check the webhook URL and server configuration.".

Section Service.

Variable P : Platform.

(** Lines 4 to 19.  Resolves with the second comma-separated part of the
    data URL, [undefined] when there is none. *)
Definition blobToBase64 (b : Blob) : IO JsValue :=
  let run := readAsDataURL P b in
  call (ReadAsDataURL b)
    (if reader_error run then
       (* reader.onerror = reject: the error event settles the promise
          before loadend can *)
       inl (Exn ProgressEvent [])
     else
       match reader_result run with
       | Some result =>
           inr match nth_error (Str.split result 44) 1 with
               | Some part => VStr part
               | None => VUndefined
               end
       | None => inl (Exn Error "Failed to read blob as a data URL.")
       end).

(** Lines 132 to 142: the file name the Content-Disposition header
    gives, if any. *)
Definition dispositionFileName (disposition : option JsString)
  : IO (option JsString) :=
  if given disposition
     && Str.includes (orEmpty disposition) "attachment" then
    match Regex.filenameRegex_exec (orEmpty disposition) with
    | Some matches1 =>
        if Str.truthy matches1 then
          decoded <-
            lift (Uri.decodeURIComponent (Regex.stripQuotes matches1)) ;;
          ret (Some decoded)
        else ret None
    | None => ret None
    end
  else ret None.

(** Lines 116 to 157: the body taken as one file. *)
Definition fileResponse (response : Response) (contentType : JsString)
  : IO (list JsValue) :=
  b <- call ReadBlob (response_blob response) ;;
  if blob_size b =? 0 then ret []
  else
    base64Content <- blobToBase64 b ;;
    fileName <-
      dispositionFileName (headers_get response "content-disposition") ;;
    fileName <-
      (if given fileName then ret (orEmpty fileName)
       else
         let fileMimeType := orElse (blob_type b) contentType in
         let extension := getExtensionFromMimeType fileMimeType in
         iso <- call DateNow (inr (now_toISOString P)) ;;
         let formattedDate := stamp iso in
         ret ("file-" +++ formattedDate +++ "."
              +++ showExtension extension)) ;;
    ret [VObj
           [("type", VStr (getMessageType
                                (orElse (blob_type b) contentType)));
            ("content", base64Content);
            ("fileName", VStr fileName);
            ("mimeType", VStr (orElse (blob_type b) contentType))]].

(** Lines 166 to 186: the inner [try] and its [catch]. *)
Definition parsedResponse (responseText : JsString) : IO (list JsValue) :=
  try
    (responseData <-
       lift match JSON_parse P responseText with
            | Some v => inr v
            | None => inl (Exn SyntaxError "Unexpected token")
            end ;;
     responses <- lift (Value.get responseData "responses") ;;
     if Value.truthy responses && Value.isArray responses
     then ret (Value.elements responses)
     else if Value.isArray responseData
     then ret (Value.elements responseData)
     else
       text_ <- lift (Value.get responseData "text") ;;
       if Value.truthy text_ && Value.isString text_
       then ret [VObj [("type", VStr "text"); ("content", text_)]]
       else throw (Exn Error invalidStructure))
  catch e => ret [VObj [("type", VStr "text");
                        ("content", VStr responseText)]].

(** Lines 161 to 186: the body taken as text. *)
Definition textResponse (response : Response) : IO (list JsValue) :=
  responseText <- call ReadText (response_text response) ;;
  if negb (Str.truthy (Str.trim responseText)) then ret []
  else parsedResponse responseText.

(** Line 111. *)
Definition contentTypeOf (response : Response) : JsString :=
  orEmpty (headers_get response "content-type").

(** Lines 106 to 186: what the [try] does with the response. *)
Definition readResponse (response : Response) : IO (list JsValue) :=
  if negb (ok response) then
    errorText <- call ReadText (response_text response) ;;
    throw (Exn Error
             ("Request failed: " +++ Str.ofNumber (status response)
              +++ " " +++ statusText response
              +++ ". Server response: " +++ errorText))
  else
    let contentType := contentTypeOf response in
    if negb (Str.startsWith contentType "application/json")
       && negb (Str.startsWith contentType "text/")
    then fileResponse response contentType
    else textResponse response.

(** Lines 188 to 193: the outer [catch]. *)
Definition networkCatch (error : JsExn) : IO (list JsValue) :=
  if instanceofTypeError error
  then throw (Exn Error networkError)
  else throw error.

Definition request (url text : JsString) (files : list File)
  (chatId : JsString) (headers : Obj.t) : Request :=
  {| req_url := url;
     req_method := "POST";
     req_body := buildFormData text files chatId;
     req_headers := headers |}.

(** Lines 65 to 194.  The items are kept as values: an array that comes
    from the body is returned as parsed, whatever its elements are. *)
Definition sendToWebhook (url text : JsString) (files : list File)
  (authConfig : AuthConfig) (chatId : JsString) : IO (list JsValue) :=
  headers <- lift (authHeaders authConfig) ;;
  (try
     (let init := request url text files chatId headers in
      response <- call (Fetch init) (fetch P init) ;;
      readResponse response)
   catch error => networkCatch error).

End Service.

(** ** A sample platform

    One fixed answer to every request, a FileReader that succeeds with the
    data URL of the blob, a fixed clock and the reference parser.  It runs
    the concrete exchanges below. *)

Module Browser.

Definition dataURL (b : Blob) : JsString :=
  ("data:" +++ blob_type b +++ ";base64,"
   +++ Base64.encode (blob_bytes b)).

Definition reader (b : Blob) : ReaderOutcome :=
  {| reader_error := false; reader_result := Some (dataURL b) |}.

Definition serving (answer : JsExn + Response) : Platform :=
  {| fetch := fun _ => answer;
     readAsDataURL := reader;
     now_toISOString := "2025-03-09T14:05:59.123Z";
     JSON_parse := Json.parse |}.

(** The bytes of an ASCII text. *)
Fixpoint bytesOf (s : JsString) : list Byte.byte :=
  match s with
  | [] => []
  | c :: r =>
      match Byte.of_N c with
      | Some b => b :: bytesOf r
      | None => bytesOf r
      end
  end.

(** A response whose body is the ASCII text [body]; the blob's type is
    given apart, as the platform derives it from the header. *)
Definition response (code : N) (reason : JsString)
  (headers : list (JsString * JsString)) (blobType body : JsString)
  : Response :=
  {| status := code;
     statusText := reason;
     headers_get := Obj.own headers;
     response_text := inr body;
     response_blob :=
       inr {| blob_bytes :=
                bytesOf body;
              blob_type := blobType |} |}.

(** The same response, whose body cannot be read. *)
Definition unreadable (r : Response) (e : JsExn) : Response :=
  {| status := status r;
     statusText := statusText r;
     headers_get := headers_get r;
     response_text := inl e;
     response_blob := inl e |}.

Definition json (body : JsString) : Response :=
  response 200 "OK" [("content-type", "application/json")]
    "application/json" body.

(** Single quotes stand for double quotes in the sample bodies. *)
Definition dq (s : JsString) : JsString := Str.replace_all s 39 34.

End Browser.

(** Sample exchanges, after the specification's examples. *)

Module Sample.

Import Browser.

Definition endpoint : JsString := "https://n8n.example/webhook/chat".

Definition exchange (r : Response) (authConfig : AuthConfig)
  : IO (list JsValue) :=
  sendToWebhook (serving (inr r)) endpoint "hi" [] authConfig "chat-1".

(** The object with the one member [foo], the number 1. *)
Definition fooBody : JsString := dq "{'foo':1}".

(** The object with the one member [text], the empty string. *)
Definition emptyTextBody : JsString := dq "{'text':''}".

(** The object with the one member [text], the string [hello **world**]. *)
Definition helloBody : JsString := dq "{'text':'hello **world**'}".

Definition twoItemsBody : JsString :=
  dq "{'responses':[{'type':'text','content':'a'},{'type':'image','content':'QUJD','mimeType':'image/png'}]}".

Definition bareArrayBody : JsString :=
  dq "[{'type':'text','content':'a'},{'type':'image','content':'QUJD','mimeType':'image/png'}]".

Definition itemA : JsValue :=
  VObj [("type", VStr "text"); ("content", VStr "a")].

Definition itemImage : JsValue :=
  VObj [("type", VStr "image"); ("content", VStr "QUJD");
        ("mimeType", VStr "image/png")].

Definition plain (body : JsString) : Response :=
  response 200 "OK" [("content-type", "text/plain")] "text/plain" body.

Definition boom : Response :=
  response 500 "Internal Server Error" [("content-type", "text/plain")]
    "text/plain" "boom".

Definition pdf (body : JsString) : Response :=
  response 200 "OK" [("content-type", "application/pdf")]
    "application/pdf" body.

(** A PDF sent as an attachment whose quoted file name is [50%.pdf]. *)
Definition percentPdf : Response :=
  response 200 "OK"
    [("content-type", "application/pdf");
     ("content-disposition", dq "attachment; filename='50%.pdf'")]
    "application/pdf" "0123456789".

(** A password of six Cyrillic letters, U+043F U+0430 U+0440 U+043E
    U+043B U+044C. *)
Definition cyrillic : JsString := [1087; 1072; 1088; 1086; 1083; 1100].

Definition attachment (name : JsString) : File :=
  {| file_name := name; file_type := "image/png"; file_bytes := [] |}.

Definition threeFiles : list File :=
  [attachment "a.png"; attachment "b.png"; attachment "c.png"].

(** A 2xx response declaring the type [contentType], or none. *)
Definition declaring (contentType : option JsString) : Response :=
  response 200 "OK"
    match contentType with
    | Some t => [("content-type", t)]
    | None => []
    end
    (orEmpty contentType) "{}".

End Sample.

(** ** The vocabulary of the specification *)

(** The three failures the specification names.  In the service each is a
    plain [Error], told from the others by its message. *)
Inductive ErrorKind := NetworkError | HttpError | MalformedResponse.

Definition errorKind (e : JsExn) : option ErrorKind :=
  match exn_class e with
  | Error =>
      if Str.eqb (exn_message e) networkError then Some NetworkError
      else if Str.startsWith (exn_message e) "Request failed: "
      then Some HttpError
      else if Str.eqb (exn_message e) invalidStructure
      then Some MalformedResponse
      else None
  | _ => None
  end.

(** The call obtains [response]: the headers are built and the platform
    answers the request with it. *)
Definition obtains (P : Platform) (url text : JsString) (files : list File)
  (authConfig : AuthConfig) (chatId : JsString) (response : Response)
  : Prop :=
  exists headers,
    authHeaders authConfig = inr headers /\
    fetch P (request url text files chatId headers) = inr response.

(** The request the call issues once its headers are built. *)
Definition issued (url text : JsString) (files : list File)
  (authConfig : AuthConfig) (chatId : JsString) : option Request :=
  match authHeaders authConfig with
  | inr headers => Some (request url text files chatId headers)
  | inl _ => None
  end.

(** The declared content type takes the text/JSON path. *)
Definition textual (contentType : JsString) : bool :=
  Str.startsWith contentType "application/json"
  || Str.startsWith contentType "text/".

(** A platform whose [JSON.parse] rejects blank text, as the JSON grammar
    demands. *)
Definition rejectsBlank (P : Platform) : Prop :=
  forall s, Forall (fun c => Str.isWhiteSpace c = true) s ->
            JSON_parse P s = None.

(** The attachment fields the specification expects, numbered from
    [index]: [file0], [file1], ... in the order of the attachments. *)
Fixpoint fileFields (index : N) (files : list File) : FormData :=
  match files with
  | [] => []
  | file :: rest =>
      ("file" +++ Str.ofNumber index, FormFile file)
      :: fileFields (index + 1) rest
  end.

(** The events that follow the blob read on the binary path. *)
Definition afterBlob (e : Event) : Prop :=
  match e with
  | ReadAsDataURL _ | DateNow => True
  | _ => False
  end.

(** The events that read a response: everything but the fetch. *)
Definition readsResponse (e : Event) : Prop :=
  match e with
  | Fetch _ => False
  | _ => True
  end.

(** ** The callers of the service

    [App.tsx] sends a turn and shows what comes back; [ChatInput.tsx]
    decides what may be sent; [SettingsModal.tsx] edits the endpoint and
    the credentials; [service-worker.ts] sits between the page and the
    network. *)

(** [BotResponse] of [types.ts]. *)
Record BotResponse :=
  { br_type : JsString;
    br_content : JsString;
    br_fileName : option JsString;
    br_mimeType : option JsString }.

(** [/^(https?|blob|data):/.test(s)] *)
Definition hasScheme (s : JsString) : bool :=
  Str.startsWith s "http:" || Str.startsWith s "https:"
  || Str.startsWith s "blob:" || Str.startsWith s "data:".

(** [App.tsx], lines 101 to 106: the content a bot message is shown
    with. *)
Definition finalContent (res : BotResponse) : JsString :=
  let isBase64Like :=
    Str.truthy (br_content res) && negb (hasScheme (br_content res)) in
  if negb (Str.eqb (br_type res) "text") && given (br_mimeType res)
     && isBase64Like
  then "data:" +++ orEmpty (br_mimeType res) +++ ";base64,"
       +++ br_content res
  else br_content res.

(** The string member [k] of an item, if it has one. *)
Definition stringMember (v : JsValue) (k : JsString) : option JsString :=
  match Value.field v k with
  | Some (VStr s) => Some s
  | _ => None
  end.

(** An item the service returned, read as the [BotResponse] the handler
    takes it for: [type] and [content] strings, [fileName] and [mimeType]
    strings where present. *)
Definition asBotResponse (v : JsValue) : option BotResponse :=
  match stringMember v "type", stringMember v "content" with
  | Some kind, Some content =>
      Some {| br_type := kind;
              br_content := content;
              br_fileName := stringMember v "fileName";
              br_mimeType := stringMember v "mimeType" |}
  | _, _ => None
  end.

(** A message of the conversation, as [handleSendMessage] builds the
    local echoes. *)
Record Message :=
  { msg_id : JsString;
    msg_sender : JsString;
    msg_type : JsString;
    msg_content : JsString;
    msg_fileName : option JsString;
    msg_timestamp : JsString }.

(** What the handler reads from its surroundings: the [k]-th reading of
    [Date.now()] and the [k]-th [URL.createObjectURL] of the turn. *)
Record Ambient :=
  { date_now : N -> N;
    createObjectURL : N -> File -> JsString }.

(** [App.tsx], lines 70 to 77: the handler's own [getMessageType]. *)
Definition localMessageType (fileType : JsString) : JsString :=
  if Str.startsWith fileType "image/" then "image"
  else if Str.startsWith fileType "video/" then "video"
  else if Str.startsWith fileType "audio/" then "audio"
  else "file".

(** [App.tsx], lines 69 to 88: one echo per attached file;
    [messageIdCounter] counts the ids given so far, [made] the object
    URLs. *)
Fixpoint fileEchoes (A : Ambient) (timestamp : JsString)
  (files : list File) (messageIdCounter made : N) : list Message :=
  match files with
  | [] => []
  | file :: rest =>
      {| msg_id := "user-file-" +++ Str.ofNumber (date_now A messageIdCounter)
                   +++ "-" +++ Str.ofNumber messageIdCounter;
         msg_sender := "user";
         msg_type := localMessageType (file_type file);
         msg_content := createObjectURL A made file;
         msg_fileName := Some (file_name file);
         msg_timestamp := timestamp |}
      :: fileEchoes A timestamp rest (messageIdCounter + 1) (made + 1)
  end.

(** [App.tsx], lines 55 to 88: [userMessages]. *)
Definition userMessages (A : Ambient) (text : JsString) (files : list File)
  (timestamp : JsString) : list Message :=
  if Str.truthy (Str.trim text) then
    {| msg_id := "user-text-" +++ Str.ofNumber (date_now A 0)
                 +++ "-" +++ Str.ofNumber 0;
       msg_sender := "user";
       msg_type := "text";
       msg_content := text;
       msg_fileName := None;
       msg_timestamp := timestamp |}
    :: fileEchoes A timestamp files 1 0
  else fileEchoes A timestamp files 0 0.

(** [ChatInput.tsx], [handleSend]: what is handed to [onSendMessage], if
    anything. *)
Definition handleSend (disabled : bool) (text : JsString)
  (files : list File) : option (JsString * list File) :=
  if disabled
     || (negb (Str.truthy (Str.trim text)) && Nat.eqb (length files) 0)
  then None
  else Some (text, files).

(** [files.filter((_, i) => i !== index)] *)
Fixpoint filterIndex (files : list File) (i index : nat) : list File :=
  match files with
  | [] => []
  | file :: rest =>
      if negb (Nat.eqb i index) then file :: filterIndex rest (S i) index
      else filterIndex rest (S i) index
  end.

(** [ChatInput.tsx], [removeFile]. *)
Definition removeFile (files : list File) (index : nat) : list File :=
  filterIndex files 0 index.

(** [AuthType] of [types.ts]. *)
Inductive AuthType := TNone | TBasic | THeader | TJwt.

(** [SettingsModal.tsx], [handleAuthTypeChange]: the configuration is
    replaced by [{ type: newType }]. *)
Definition handleAuthTypeChange (newType : AuthType) : AuthConfig :=
  match newType with
  | TNone => NoAuth
  | TBasic => BasicAuth None None
  | THeader => HeaderAuth None None
  | TJwt => JwtAuth None
  end.

(** [SettingsModal.tsx], [handleSave]: what is handed to [onSave], if
    anything. *)
Definition handleSave (url : JsString) (authConfig : AuthConfig)
  : option (JsString * AuthConfig) :=
  if Str.truthy (Str.trim url) then Some (Str.trim url, authConfig)
  else None.

(** *** The service worker *)

Definition CACHE_NAME : JsString := "n8n-webhook-chat-cache-v1".

Record SwRequest := { sw_method : JsString; sw_url : JsString }.

Record SwResponse := { sw_status : N; sw_body : JsString }.

(** What the fetch handler does on the platform, in order. *)
Inductive SwEffect :=
| CachesMatch (request : SwRequest)
| NetworkFetch (request : SwRequest)
| CachePut (request : SwRequest) (response : SwResponse).

(** How the handler leaves the event: untouched, or answered through
    [respondWith] ([None] is [undefined], after a failed network
    request). *)
Inductive Handled :=
| PassThrough
| RespondWith (response : option SwResponse).

(** The [fetch] listener.  [cached] is what [caches.match] finds and
    [network] how the network request ends; each is consulted only where
    the effect is listed. *)
Definition onFetch (cached : SwRequest -> option SwResponse)
  (network : SwRequest -> JsExn + SwResponse) (request : SwRequest)
  : Handled * list SwEffect :=
  if negb (Str.eqb (sw_method request) "GET") then (PassThrough, [])
  else
    match cached request with
    | Some cachedResponse =>
        (RespondWith (Some cachedResponse), [CachesMatch request])
    | None =>
        match network request with
        | inr networkResponse =>
            if negb (sw_status networkResponse =? 200) then
              (RespondWith (Some networkResponse),
               [CachesMatch request; NetworkFetch request])
            else if negb (Str.includes (sw_url request) "/webhook/") then
              (RespondWith (Some networkResponse),
               [CachesMatch request; NetworkFetch request;
                CachePut request networkResponse])
            else
              (RespondWith (Some networkResponse),
               [CachesMatch request; NetworkFetch request])
        | inl _ =>
            (RespondWith None, [CachesMatch request; NetworkFetch request])
        end
    end.

(** The [activate] listener: the caches it deletes, out of the names
    [caches.keys()] gives. *)
Definition onActivate (cacheNames : list JsString) : list JsString :=
  let cacheWhitelist := [CACHE_NAME] in
  filter (fun cacheName => negb (existsb (Str.eqb cacheName) cacheWhitelist))
    cacheNames.

(** The request of the page as the worker sees it. *)
Definition seenByWorker (init : Request) : SwRequest :=
  {| sw_method := req_method init; sw_url := req_url init |}.

(** A file name the header can carry as it is: no quote, no line
    terminator, no percent sign. *)
Definition plainName (name : JsString) : Prop :=
  Forall (fun c => Regex.quote c = false /\ Regex.lineTerminator c = false
                   /\ c <> 37) name.

(** The header [attachment; filename=QnameQ], [Q] a quote character. *)
Definition attachmentHeader (q : N) (name : JsString) : JsString :=
  "attachment; filename=" +++ q :: name ++ [q].

(** The file name send makes up at the time [iso] for the type [mime]. *)
Definition synthesizedName (iso mime : JsString) : JsString :=
  "file-" +++ stamp iso +++ "."
  +++ showExtension (getExtensionFromMimeType mime).

(** The item of the binary path. *)
Definition fileItemValue (mime : JsString) (content : JsValue)
  (fileName : JsString) : JsValue :=
  VObj [("type", VStr (getMessageType mime));
        ("content", content);
        ("fileName", VStr fileName);
        ("mimeType", VStr mime)].

(** More sample exchanges. *)

Module More.

Import Browser.

(** The README's example: a PDF sent as an attachment named
    [report.pdf]. *)
Definition reportPdf : Response :=
  response 200 "OK"
    [("content-type", "application/pdf");
     ("content-disposition", attachmentHeader 34 "report.pdf")]
    "application/pdf" "0123456789".

(** The same file shown in line: the header holds a name but not the
    word [attachment]. *)
Definition inlinePdf : Response :=
  response 200 "OK"
    [("content-type", "application/pdf");
     ("content-disposition", dq "inline; filename='report.pdf'")]
    "application/pdf" "0123456789".

Definition pdfBlob : Blob :=
  {| blob_bytes := bytesOf "0123456789"; blob_type := "application/pdf" |}.

(** A clock and an object-URL maker for the handler of [App.tsx]. *)
Definition ambient : Ambient :=
  {| date_now := fun k => 1741529159000 + k;
     createObjectURL := fun k _ => "blob:https://chat.example/" +++ Str.ofNumber k |}.

End More.

(** * Properties *)

(** ** Strings *)

Definition blank (s : JsString) : Prop :=
  Forall (fun c => Str.isWhiteSpace c = true) s.

Lemma trimStart_blank (s : JsString) : blank s -> Str.trimStart s = [].
Proof.
  induction 1 as [|c r Hc _ IH]; simpl.
  - reflexivity.
  - now rewrite Hc.
Qed.

Lemma trimStart_head (s : JsString) (c : N) (r : JsString) :
  Str.trimStart s = c :: r -> Str.isWhiteSpace c = false.
Proof.
  induction s as [|d s IH]; simpl; [discriminate|].
  destruct (Str.isWhiteSpace d) eqn:E; [exact IH|].
  intros H; injection H as -> _; exact E.
Qed.

Lemma trimStart_nil (s : JsString) : Str.trimStart s = [] -> blank s.
Proof.
  induction s as [|d s IH]; simpl; intros H.
  - constructor.
  - destruct (Str.isWhiteSpace d) eqn:E; [|discriminate].
    constructor; [exact E | exact (IH H)].
Qed.

Lemma trim_blank (s : JsString) : blank s -> Str.trim s = [].
Proof.
  intros H. unfold Str.trim, Str.trimEnd.
  now rewrite (trimStart_blank s H).
Qed.

Lemma trim_nil (s : JsString) : Str.trim s = [] -> blank s.
Proof.
  unfold Str.trim, Str.trimEnd. intros H.
  assert (Hr : Str.trimStart (rev (Str.trimStart s)) = []).
  { rewrite <- (rev_involutive (Str.trimStart _)), H. reflexivity. }
  apply trimStart_nil in Hr.
  destruct (Str.trimStart s) as [|c r] eqn:E.
  - now apply trimStart_nil.
  - exfalso. apply trimStart_head in E.
    unfold blank in Hr. rewrite Forall_forall in Hr.
    specialize (Hr c). rewrite Hr in E; [discriminate|].
    apply in_rev. rewrite rev_involutive. now left.
Qed.

(** A string is blank exactly when nothing of it survives [trim]. *)
Lemma trim_nil_iff (s : JsString) : Str.trim s = [] <-> blank s.
Proof. split; [apply trim_nil | apply trim_blank]. Qed.

Lemma truthy_trim (s : JsString) :
  Str.truthy (Str.trim s) = false <-> blank s.
Proof.
  rewrite <- trim_nil_iff.
  destruct (Str.trim s); simpl; split; congruence.
Qed.

Lemma eqb_eq (a b : JsString) : Str.eqb a b = true <-> a = b.
Proof.
  revert b; induction a as [|c a IH]; intros [|d b]; simpl;
    try (split; (reflexivity || discriminate)).
  rewrite andb_true_iff, N.eqb_eq, IH.
  split; [intros [-> ->]; reflexivity | intros H; now injection H].
Qed.

Lemma eqb_refl (a : JsString) : Str.eqb a a = true.
Proof. now apply eqb_eq. Qed.

Lemma eqb_neq (a b : JsString) : a <> b -> Str.eqb a b = false.
Proof.
  intros H. destruct (Str.eqb a b) eqn:E; [|reflexivity].
  now apply eqb_eq in E.
Qed.

Lemma occursIn_here (sub after : JsString) : Str.occursIn sub (sub ++ after).
Proof. now exists [], after. Qed.

Lemma occursIn_later (sub before s : JsString) :
  Str.occursIn sub s -> Str.occursIn sub (before ++ s).
Proof.
  intros (b & a & ->). exists (before ++ b), a. now rewrite app_assoc.
Qed.

Lemma occursIn_end (sub before : JsString) : Str.occursIn sub (before ++ sub).
Proof. exists before, []. now rewrite app_nil_r. Qed.

(** ** The reference parser rejects blank text *)

Lemma skipWs_blank (s : JsString) : blank s -> blank (Json.skipWs s).
Proof.
  induction 1 as [|c r Hc Hr IH]; simpl.
  - constructor.
  - destruct (Json.isWs c); [exact IH | now constructor].
Qed.

Lemma whiteSpace_cases (c : N) :
  Str.isWhiteSpace c = true ->
  (9 <= c <= 13 \/ c = 32 \/ c = 160 \/ c = 5760 \/ 8192 <= c)%N.
Proof.
  unfold Str.isWhiteSpace.
  rewrite !orb_true_iff, !andb_true_iff, !N.leb_le, !N.eqb_eq. lia.
Qed.

Lemma value_whiteSpace (fuel : nat) (c : N) (r : JsString) :
  Str.isWhiteSpace c = true -> Json.value fuel (c :: r) = None.
Proof.
  intros H. apply whiteSpace_cases in H.
  destruct fuel as [|n]; [reflexivity|].
  assert (T : forall k : N,
             (k = 123 \/ k = 91 \/ k = 34 \/ k = 116 \/ k = 102 \/ k = 110
              \/ k = 45 \/ k = 48)%N -> (c =? k) = false).
  { intros k Hk. apply N.eqb_neq. lia. }
  assert (D : Json.isDigit c = false).
  { unfold Json.isDigit. apply andb_false_iff.
    rewrite !N.leb_gt. lia. }
  cbn -[N.eqb Json.isDigit].
  rewrite !T by tauto. cbn -[N.eqb Json.isDigit].
  rewrite ?T by tauto. cbn -[N.eqb Json.isDigit].
  unfold Json.number, Json.integer, Json.someDigits.
  rewrite !T by tauto. cbn -[N.eqb Json.isDigit].
  rewrite (N.eqb_sym 116 c), (N.eqb_sym 102 c), (N.eqb_sym 110 c).
  rewrite !T by tauto. cbn -[N.eqb Json.isDigit].
  now rewrite D.
Qed.

Lemma parse_blank (s : JsString) : Str.trim s = [] -> Json.parse s = None.
Proof.
  intros H. apply trim_nil, skipWs_blank in H.
  unfold Json.parse.
  destruct (Json.skipWs s) as [|c r].
  - reflexivity.
  - inversion H; subst. now rewrite value_whiteSpace.
Qed.

(** ** Running the service *)

(** [response.ok] is the 2xx range. *)
Lemma ok_2xx (r : Response) : ok r = true <-> 200 <= status r <= 299.
Proof. unfold ok. rewrite andb_true_iff, !N.leb_le. tauto. Qed.

Ltac io :=
  unfold outcome, log, sendToWebhook, readResponse, textResponse,
    parsedResponse, fileResponse, blobToBase64, dispositionFileName,
    networkCatch, bind, try_catch, call, lift, ret, throw.

Lemma not_blank_head (c : N) (r : JsString) :
  Str.isWhiteSpace c = false -> ~ blank (c :: r).
Proof. intros E H. inversion H; subst. congruence. Qed.

Lemma truthy_trim_true (s : JsString) :
  ~ blank s -> Str.truthy (Str.trim s) = true.
Proof.
  intros H. destruct (Str.truthy (Str.trim s)) eqn:E; [reflexivity|].
  now apply truthy_trim in E.
Qed.

(** No branch hangs on the truthiness of a number: next to [isArray] the
    truthiness test changes nothing. *)
Lemma truthy_isArray (v : JsValue) :
  Value.truthy v && Value.isArray v = Value.isArray v.
Proof. destruct v; simpl; try reflexivity; apply andb_false_r. Qed.

Section Exchange.

Variable P : Platform.
Variables (url text : JsString) (files : list File).
Variables (authConfig : AuthConfig) (chatId : JsString).

Local Abbreviation send :=
  (sendToWebhook P url text files authConfig chatId).
Local Abbreviation obtained :=
  (obtains P url text files authConfig chatId).

(** With the headers built, the run is the fetch followed by
    [readResponse] under the outer [catch]. *)
Lemma send_issued (headers : Obj.t) :
  authHeaders authConfig = inr headers ->
  send [] =
  let init := request url text files chatId headers in
  match fetch P init with
  | inr response =>
      try_catch (readResponse P response) (networkCatch) [Fetch init]
  | inl e => networkCatch e [Fetch init]
  end.
Proof.
  intros H. unfold sendToWebhook, bind, lift, try_catch, call.
  rewrite H. simpl. destruct (fetch P _); reflexivity.
Qed.

Lemma send_obtained (response : Response) :
  obtained response ->
  exists init,
    issued url text files authConfig chatId = Some init /\
    send [] =
    try_catch (readResponse P response) networkCatch [Fetch init].
Proof.
  intros (headers & Hh & Hf). exists (request url text files chatId headers).
  unfold issued. rewrite Hh. split; [reflexivity|].
  rewrite (send_issued headers Hh). simpl. now rewrite Hf.
Qed.

(** A run that succeeds passes the outer [catch] untouched. *)
Lemma try_catch_success {A} (m : IO A) (h : JsExn -> IO A)
  (l l' : list Event) (a : A) :
  m l = (inr a, l') -> try_catch m h l = (inr a, l').
Proof. intros H. unfold try_catch. now rewrite H. Qed.

(** The two paths of a 2xx response. *)
Lemma readResponse_textual (r : Response) (l : list Event) :
  ok r = true -> textual (contentTypeOf r) = true ->
  readResponse P r l = textResponse P r l.
Proof.
  intros Hok Ht. unfold readResponse. rewrite Hok. cbn [negb].
  unfold textual in Ht. rewrite <- negb_orb, Ht. reflexivity.
Qed.

Lemma readResponse_binary (r : Response) (l : list Event) :
  ok r = true -> textual (contentTypeOf r) = false ->
  readResponse P r l = fileResponse P r (contentTypeOf r) l.
Proof.
  intros Hok Ht. unfold readResponse. rewrite Hok. cbn [negb].
  unfold textual in Ht. rewrite <- negb_orb, Ht. reflexivity.
Qed.

Lemma textResponse_blank (r : Response) (body : JsString) (l : list Event) :
  response_text r = inr body -> blank body ->
  textResponse P r l = (inr [], l ++ [ReadText]).
Proof.
  intros Hb Hw. unfold textResponse, bind, call, ret. rewrite Hb.
  apply truthy_trim in Hw. now rewrite Hw.
Qed.

Lemma textResponse_parsed (r : Response) (body : JsString)
  (l : list Event) :
  response_text r = inr body -> ~ blank body ->
  textResponse P r l = parsedResponse P body (l ++ [ReadText]).
Proof.
  intros Hb Hw. unfold textResponse, bind, call, ret. rewrite Hb.
  now rewrite (truthy_trim_true body Hw).
Qed.

(** The inner [try]: what each shape of the parsed value yields. *)
Lemma parsedResponse_unparsable (body : JsString) (l : list Event) :
  JSON_parse P body = None ->
  parsedResponse P body l = (inr [textItem body], l).
Proof. intros H. io. now rewrite H. Qed.

Lemma parsedResponse_responses (body : JsString) (v : JsValue)
  (items : list JsValue) (l : list Event) :
  JSON_parse P body = Some v ->
  Value.field v "responses" = Some (VArr items) ->
  parsedResponse P body l = (inr items, l).
Proof.
  intros H Hf. io. rewrite H. simpl.
  destruct v; simpl in Hf; try discriminate.
  unfold Value.get. simpl. now rewrite Hf.
Qed.

Lemma parsedResponse_array (body : JsString) (items : list JsValue)
  (l : list Event) :
  JSON_parse P body = Some (VArr items) ->
  parsedResponse P body l = (inr items, l).
Proof. intros H. io. now rewrite H. Qed.

Lemma parsedResponse_text (body : JsString) (v : JsValue) (s : JsString)
  (l : list Event) :
  JSON_parse P body = Some v ->
  (forall items, Value.field v "responses" <> Some (VArr items)) ->
  Value.isArray v = false ->
  Value.field v "text" = Some (VStr s) ->
  s <> [] ->
  parsedResponse P body l = (inr [textItem s], l).
Proof.
  intros H Hr Ha Ht Hs. io. rewrite H. simpl.
  destruct v; simpl in Ht; try discriminate.
  unfold Value.get. simpl in *.
  destruct (Value.lookup members "responses") as [x|] eqn:E; simpl.
  - rewrite truthy_isArray.
    destruct x; simpl; try (rewrite Ht; destruct s; [congruence|reflexivity]).
    now elim (Hr items).
  - rewrite Ht. destruct s; [congruence|reflexivity].
Qed.

(** Whatever the parser says, the inner [try] never lets an exception
    out: its [catch] turns every one into the plain-text item. *)
Lemma parsedResponse_succeeds (body : JsString) (l : list Event) :
  exists items, parsedResponse P body l = (inr items, l).
Proof.
  io. destruct (JSON_parse P body) as [v|]; simpl; [|eauto].
  destruct (Value.get v "responses") as [e|x]; simpl; [eauto|].
  destruct (Value.truthy x && Value.isArray x); simpl; [eauto|].
  destruct (Value.isArray v); simpl; [eauto|].
  destruct (Value.get v "text") as [e|y]; simpl; [eauto|].
  destruct (Value.truthy y && Value.isString y); simpl; eauto.
Qed.

End Exchange.

(** ** The sample platform *)

Lemma serving_rejectsBlank (answer : JsExn + Response) :
  rejectsBlank (Browser.serving answer).
Proof. intros s H. simpl. apply parse_blank. now apply trim_blank. Qed.

Lemma serving_obtains (r : Response) (url text : JsString)
  (files : list File) (chatId : JsString) :
  obtains (Browser.serving (inr r)) url text files NoAuth chatId r.
Proof. exists []. split; reflexivity. Qed.

(** ** The text/JSON path *)

Section TextPath.

Variable P : Platform.
Variables (url text : JsString) (files : list File).
Variables (authConfig : AuthConfig) (chatId : JsString).

Local Abbreviation send :=
  (sendToWebhook P url text files authConfig chatId).
Local Abbreviation obtained :=
  (obtains P url text files authConfig chatId).

(** A body that is read and is not blank: the run is the fetch, the read
    and whatever the inner [try] yields. *)
Lemma send_parsed (r : Response) (body : JsString) (items : list JsValue) :
  obtained r -> ok r = true -> textual (contentTypeOf r) = true ->
  response_text r = inr body -> ~ blank body ->
  (forall l, parsedResponse P body l = (inr items, l)) ->
  outcome send = inr items.
Proof.
  intros Ho Hok Ht Hb Hn Hp.
  destruct (send_obtained P url text files authConfig chatId r Ho)
    as (init & _ & Hrun).
  unfold outcome. rewrite Hrun.
  rewrite (try_catch_success _ _ _ ([Fetch init] ++ [ReadText]) items);
    [reflexivity|].
  rewrite readResponse_textual by assumption.
  rewrite (textResponse_parsed P r body) by assumption.
  apply Hp.
Qed.

(** On the text/JSON path a body that can be read never makes the call
    fail. *)
Lemma text_path_succeeds (r : Response) (body : JsString) :
  obtained r -> ok r = true -> textual (contentTypeOf r) = true ->
  response_text r = inr body ->
  exists items, outcome send = inr items.
Proof.
  intros Ho Hok Ht Hb.
  destruct (send_obtained P url text files authConfig chatId r Ho)
    as (init & _ & Hrun).
  unfold outcome. rewrite Hrun. unfold try_catch.
  rewrite readResponse_textual by assumption.
  unfold textResponse, bind, call, ret. rewrite Hb.
  destruct (Str.truthy (Str.trim body)); cbn [negb fst]; [|eauto].
  destruct (parsedResponse_succeeds P body ([Fetch init] ++ [ReadText]))
    as (items & ->).
  now exists items.
Qed.

(** Valid JSON of no recognised shape comes back as the raw body in a
    text item: the [throw] of line 181 lands in the [catch] of line 183. *)
Lemma unrecognised_shape_echoes_body (r : Response) (body : JsString)
  (v : JsValue) :
  obtained r -> ok r = true -> textual (contentTypeOf r) = true ->
  response_text r = inr body -> ~ blank body ->
  JSON_parse P body = Some v ->
  (forall items, Value.field v "responses" <> Some (VArr items)) ->
  Value.isArray v = false ->
  (forall s, Value.field v "text" = Some (VStr s) -> s = []) ->
  outcome send = inr [textItem body].
Proof.
  intros Ho Hok Ht Hb Hn Hp Hr Ha Hx.
  apply (send_parsed r body); try assumption.
  intros l. io. rewrite Hp. simpl.
  destruct v as [| | | | |arr|members]; simpl in *;
    try reflexivity; try discriminate.
  unfold Value.get; simpl.
  destruct (Value.lookup members "responses") as [x|] eqn:Er; simpl;
    rewrite ?truthy_isArray;
    [destruct x as [| | | | |rs|]; simpl; try (now elim (Hr rs))|];
    (destruct (Value.lookup members "text") as [[| | |n|str| |]|] eqn:Et;
     simpl; rewrite ?andb_false_r; try reflexivity;
     now rewrite (Hx str eq_refl)).
Qed.

(** C5.  For every 2xx response on the text/JSON path whose body is not
    empty (something of it survives trimming) and fails to parse as JSON,
    send does not fail: it succeeds with exactly one item of kind text whose
    content is the raw body text, unchanged. *)
Theorem C5_unparsable_body_is_plain_text (r : Response) (body : JsString) :
  obtained r -> ok r = true -> textual (contentTypeOf r) = true ->
  response_text r = inr body -> ~ blank body ->
  JSON_parse P body = None ->
  outcome send = inr [textItem body].
Proof.
  intros Ho Hok Ht Hb Hn Hp.
  apply (send_parsed r body); try assumption.
  intros l. now apply parsedResponse_unparsable.
Qed.

(** C8.  On a platform whose [JSON.parse] rejects blank text, as every one
    does: for every 2xx text/JSON response whose body parses as valid JSON:
    if the parsed value has a [responses] field that is an array, send
    returns exactly that array's elements, unchanged and in order;
    otherwise, if the parsed value is itself an array, send returns its
    elements unchanged and in order.  Neither case looks at a [text] field,
    and the first does not look at whether the value is an array: the
    [responses] shape comes before the bare array, and both before
    [text]. *)
Theorem C8_responses_then_bare_array (r : Response) (body : JsString)
  (v : JsValue) :
  rejectsBlank P ->
  obtained r -> ok r = true -> textual (contentTypeOf r) = true ->
  response_text r = inr body ->
  JSON_parse P body = Some v ->
  (forall items,
      Value.field v "responses" = Some (VArr items) ->
      outcome send = inr items) /\
  (forall items,
      (forall rs, Value.field v "responses" <> Some (VArr rs)) ->
      v = VArr items ->
      outcome send = inr items).
Proof.
  intros HP Ho Hok Ht Hb Hp.
  assert (Hn : ~ blank body).
  { intros Hw. rewrite (HP body Hw) in Hp. discriminate. }
  split.
  - intros items Hf. apply (send_parsed r body); try assumption.
    intros l. now apply (parsedResponse_responses P body v).
  - intros items _ ->. apply (send_parsed r body); try assumption.
    intros l. now apply parsedResponse_array.
Qed.

(** C3, as the code has it.  On a platform whose [JSON.parse] rejects
    blank text, as every one does: for every 2xx text/JSON response whose body
    parses as a JSON value that has no array-valued [responses] field and is
    not itself an array, if the parsed value has a [text] field holding a
    string that is not empty, send succeeds with exactly the single-element
    sequence [[{type: text, content: thatString}]]. *)
Theorem C3_nonempty_text_field (r : Response) (body : JsString)
  (v : JsValue) (s : JsString) :
  rejectsBlank P ->
  obtained r -> ok r = true -> textual (contentTypeOf r) = true ->
  response_text r = inr body ->
  JSON_parse P body = Some v ->
  (forall items, Value.field v "responses" <> Some (VArr items)) ->
  Value.isArray v = false ->
  Value.field v "text" = Some (VStr s) ->
  s <> [] ->
  outcome send = inr [textItem s].
Proof.
  intros HP Ho Hok Ht Hb Hp Hr Ha Hx Hs.
  assert (Hn : ~ blank body).
  { intros Hw. rewrite (HP body Hw) in Hp. discriminate. }
  apply (send_parsed r body); try assumption.
  intros l. now apply (parsedResponse_text P body v s).
Qed.

End TextPath.

Lemma C5_unparsable_body_is_plain_text_witness :
  outcome (Sample.exchange (Sample.plain "just a string, not json") NoAuth)
  = inr [textItem "just a string, not json"].
Proof.
  apply (C5_unparsable_body_is_plain_text _ _ _ _ _ _
           (Sample.plain "just a string, not json")).
  - apply serving_obtains.
  - reflexivity.
  - reflexivity.
  - reflexivity.
  - apply not_blank_head. reflexivity.
  - reflexivity.
Defined.

Lemma C8_responses_then_bare_array_witness :
  outcome (Sample.exchange (Browser.json Sample.twoItemsBody) NoAuth)
  = inr [Sample.itemA; Sample.itemImage] /\
  outcome (Sample.exchange (Browser.json Sample.bareArrayBody) NoAuth)
  = inr [Sample.itemA; Sample.itemImage].
Proof.
  split.
  - apply (proj1 (C8_responses_then_bare_array
                    (Browser.serving (inr (Browser.json Sample.twoItemsBody)))
                    Sample.endpoint "hi" [] NoAuth "chat-1"
                    (Browser.json Sample.twoItemsBody) Sample.twoItemsBody
                    (VObj [("responses",
                            VArr [Sample.itemA; Sample.itemImage])])
                    (serving_rejectsBlank _) (serving_obtains _ _ _ _ _)
                    eq_refl eq_refl eq_refl eq_refl)).
    reflexivity.
  - apply (proj2 (C8_responses_then_bare_array
                    (Browser.serving (inr (Browser.json Sample.bareArrayBody)))
                    Sample.endpoint "hi" [] NoAuth "chat-1"
                    (Browser.json Sample.bareArrayBody) Sample.bareArrayBody
                    (VArr [Sample.itemA; Sample.itemImage])
                    (serving_rejectsBlank _) (serving_obtains _ _ _ _ _)
                    eq_refl eq_refl eq_refl eq_refl)).
    + discriminate.
    + reflexivity.
Defined.

Lemma C3_nonempty_text_field_witness :
  outcome (Sample.exchange (Browser.json Sample.helloBody) NoAuth)
  = inr [textItem "hello **world**"].
Proof.
  apply (C3_nonempty_text_field _ _ _ _ _ _
           (Browser.json Sample.helloBody) Sample.helloBody
           (VObj [("text", VStr "hello **world**")])).
  - apply serving_rejectsBlank.
  - apply serving_obtains.
  - reflexivity.
  - reflexivity.
  - reflexivity.
  - reflexivity.
  - discriminate.
  - reflexivity.
  - reflexivity.
  - discriminate.
Defined.

(** C3 fails on the empty string.  The body [Sample.emptyTextBody] parses
    to an object whose [text] field is the empty string, with no
    [responses] and not an array; the claim promises the single item with
    the empty content, and the call returns the single item whose content
    is the raw body. *)
Lemma C3_empty_text_counterexample :
  Json.parse Sample.emptyTextBody = Some (VObj [("text", VStr [])]) /\
  outcome (Sample.exchange (Browser.json Sample.emptyTextBody) NoAuth)
  = inr [textItem Sample.emptyTextBody] /\
  outcome (Sample.exchange (Browser.json Sample.emptyTextBody) NoAuth)
  <> inr [textItem []].
Proof. split; [reflexivity | split; [reflexivity | discriminate]]. Qed.

(** C5 fails on a body of white space.  One space is a body that is not
    empty and does not parse as JSON; the claim promises the text item
    that holds it, and the call returns no item at all (line 163). *)
Lemma C5_blank_body_counterexample :
  response_text (Sample.plain " ") = inr " " /\
  " " <> [] /\
  Json.parse " " = None /\
  outcome (Sample.exchange (Sample.plain " ") NoAuth) = inr [] /\
  outcome (Sample.exchange (Sample.plain " ") NoAuth)
  <> inr [textItem " "].
Proof.
  split; [reflexivity|]. split; [discriminate|].
  split; [reflexivity|]. split; [reflexivity | discriminate].
Qed.

(** C1 against the code.  The body [Sample.fooBody], declared
    [application/json] on a 200, parses to an object with none of the three
    shapes; the call does not fail with the invalid-structure error, it
    succeeds with the raw body as one text item. *)
Theorem C1_unrecognised_shape_is_not_reported :
  Json.parse Sample.fooBody = Some (VObj [("foo", VNum "1")]) /\
  outcome (Sample.exchange (Browser.json Sample.fooBody) NoAuth)
  = inr [textItem Sample.fooBody].
Proof. split; reflexivity. Qed.

(** ** The binary path, and which path a response takes *)

Section Paths.

Variable P : Platform.
Variables (url text : JsString) (files : list File).
Variables (authConfig : AuthConfig) (chatId : JsString).

Local Abbreviation send :=
  (sendToWebhook P url text files authConfig chatId).
Local Abbreviation obtained :=
  (obtains P url text files authConfig chatId).

Lemma fileResponse_empty (r : Response) (contentType : JsString)
  (b : Blob) (l : list Event) :
  response_blob r = inr b -> blob_size b = 0 ->
  fileResponse P r contentType l = (inr [], l ++ [ReadBlob]).
Proof.
  intros Hb Hs. unfold fileResponse, bind, call, ret. rewrite Hb, Hs.
  reflexivity.
Qed.

(** The binary path reads the body as a blob, first thing; after it come
    at most the FileReader and the clock. *)
Lemma fileResponse_log (r : Response) (contentType : JsString)
  (l : list Event) :
  exists res rest,
    fileResponse P r contentType l = (res, l ++ ReadBlob :: rest) /\
    Forall afterBlob rest.
Proof.
  io.
  destruct (response_blob r) as [e|b];
    [exists (inl e), []; split; [reflexivity | constructor]|].
  destruct (blob_size b =? 0);
    [exists (inr []), []; split; [reflexivity | constructor]|].
  assert (E : forall x : list Event,
             (l ++ [ReadBlob]) ++ x = l ++ ReadBlob :: x).
  { intros x. now rewrite <- app_assoc. }
  destruct (reader_error (readAsDataURL P b)).
  { eexists _, [ReadAsDataURL b]. split; [now rewrite E|].
    repeat constructor. }
  destruct (reader_result (readAsDataURL P b)) as [result|].
  2:{ eexists _, [ReadAsDataURL b]. split; [now rewrite E|].
      repeat constructor. }
  destruct (given (headers_get r "content-disposition")
            && Str.includes (orEmpty (headers_get r "content-disposition"))
                 "attachment");
    [destruct (Regex.filenameRegex_exec
                 (orEmpty (headers_get r "content-disposition")))
       as [m|]; [destruct (Str.truthy m);
                 [destruct (Uri.decodeURIComponent (Regex.stripQuotes m))
                    as [e|name]; [|destruct (given (Some name))]|]|]|];
    simpl;
    try (eexists _, [ReadAsDataURL b]; split; [now rewrite E|];
         repeat constructor);
    (eexists _, [ReadAsDataURL b; DateNow]; split;
     [now rewrite <- !app_assoc | repeat constructor]).
Qed.

(** The text/JSON path reads the body as text and touches nothing else. *)
Lemma textResponse_log (r : Response) (l : list Event) :
  exists res, textResponse P r l = (res, l ++ [ReadText]).
Proof.
  unfold textResponse, bind, call, ret.
  destruct (response_text r) as [e|body]; [eauto|].
  destruct (negb (Str.truthy (Str.trim body))); [eauto|].
  destruct (parsedResponse_succeeds P body (l ++ [ReadText])) as (i & ->).
  eauto.
Qed.

Lemma networkCatch_log (e : JsExn) (l : list Event) :
  snd (networkCatch e l) = l.
Proof. unfold networkCatch, throw. now destruct (instanceofTypeError e). Qed.

Lemma try_catch_log (m : IO (list JsValue)) (l l' : list Event)
  (res : JsExn + list JsValue) :
  m l = (res, l') -> snd (try_catch m networkCatch l) = l'.
Proof.
  intros H. unfold try_catch. rewrite H.
  destruct res; [apply networkCatch_log | reflexivity].
Qed.

(** The log of a call that obtained a 2xx response. *)
Lemma send_log (r : Response) :
  obtained r -> ok r = true ->
  exists init,
    issued url text files authConfig chatId = Some init /\
    if textual (contentTypeOf r)
    then log send = [Fetch init; ReadText]
    else exists rest,
        log send = Fetch init :: ReadBlob :: rest /\ Forall afterBlob rest.
Proof.
  intros Ho Hok.
  destruct (send_obtained P url text files authConfig chatId r Ho)
    as (init & Hi & Hrun).
  exists init. split; [exact Hi|]. unfold log. rewrite Hrun.
  destruct (textual (contentTypeOf r)) eqn:Ht.
  - destruct (textResponse_log r [Fetch init]) as (res & H).
    apply (try_catch_log _ _ _ res).
    now rewrite readResponse_textual.
  - destruct (fileResponse_log r (contentTypeOf r) [Fetch init])
      as (res & rest & H & Hn).
    exists rest. split; [|exact Hn].
    apply (try_catch_log _ _ _ res).
    now rewrite readResponse_binary.
Qed.

(** C10.  For every 2xx response the branch is decided by string prefix on
    the declared content type alone: the body is read as text (the
    text/JSON path) iff the content type starts with [application/json] or
    with [text/], and as a blob (the binary-file path) iff it does not.  An
    absent header, taken as the empty string, and [application/ld+json] go
    the binary way; [application/json; charset=utf-8] goes the text way. *)
Theorem C10_path_by_prefix (r : Response) :
  obtained r -> ok r = true ->
  let contentType := orEmpty (headers_get r "content-type") in
  (In ReadText (log send) <->
   Str.startsWith contentType "application/json" = true \/
   Str.startsWith contentType "text/" = true) /\
  (In ReadBlob (log send) <->
   ~ (Str.startsWith contentType "application/json" = true \/
      Str.startsWith contentType "text/" = true)) /\
  (headers_get r "content-type" = None -> In ReadBlob (log send)) /\
  (headers_get r "content-type" = Some "application/ld+json" ->
   In ReadBlob (log send)) /\
  (headers_get r "content-type" = Some "application/json; charset=utf-8" ->
   In ReadText (log send)).
Proof.
  intros Ho Hok contentType.
  destruct (send_log r Ho Hok) as (init & _ & H).
  assert (T : textual (contentTypeOf r) = true <->
              Str.startsWith contentType "application/json" = true \/
              Str.startsWith contentType "text/" = true).
  { unfold textual. now rewrite orb_true_iff. }
  assert (Ht : In ReadText (log send) <-> textual (contentTypeOf r) = true).
  { destruct (textual (contentTypeOf r)).
    - rewrite H. simpl. intuition.
    - destruct H as (rest & -> & Hn). rewrite Forall_forall in Hn.
      simpl. split; [|discriminate].
      intros [E|[E|E]]; try discriminate. now apply Hn in E. }
  assert (Hb : In ReadBlob (log send) <-> textual (contentTypeOf r) = false).
  { destruct (textual (contentTypeOf r)).
    - rewrite H. simpl. intuition discriminate.
    - destruct H as (rest & -> & Hn). simpl. intuition. }
  split; [now rewrite Ht|].
  split; [rewrite Hb, <- T; now destruct (textual (contentTypeOf r))|].
  repeat split; intros E; [apply Hb | apply Hb | apply Ht];
    unfold contentTypeOf; now rewrite E.
Qed.

(** C6.  For every 2xx response with an empty body, send succeeds with the
    empty sequence rather than failing: on the binary path a zero-length
    blob yields [[]], and on the text/JSON path an empty or
    whitespace-only body yields [[]]. *)
Theorem C6_empty_body_is_empty_sequence (r : Response) :
  obtained r -> ok r = true ->
  (textual (contentTypeOf r) = false ->
   forall b, response_blob r = inr b -> blob_size b = 0 ->
             outcome send = inr []) /\
  (textual (contentTypeOf r) = true ->
   forall body, response_text r = inr body ->
                body = [] \/ blank body ->
                outcome send = inr []).
Proof.
  intros Ho Hok.
  destruct (send_obtained P url text files authConfig chatId r Ho)
    as (init & _ & Hrun).
  unfold outcome. rewrite Hrun. split.
  - intros Ht b Hb Hs.
    rewrite (try_catch_success _ _ _ ([Fetch init] ++ [ReadBlob]) []);
      [reflexivity|].
    rewrite readResponse_binary by assumption.
    now apply (fileResponse_empty r _ b).
  - intros Ht body Hb Hw.
    assert (Hw' : blank body) by (destruct Hw as [->|]; [constructor|easy]).
    rewrite (try_catch_success _ _ _ ([Fetch init] ++ [ReadText]) []);
      [reflexivity|].
    rewrite readResponse_textual by assumption.
    now apply (textResponse_blank P r body).
Qed.

End Paths.

Lemma C10_path_by_prefix_witness :
  In ReadText
    (log (Sample.exchange
            (Sample.declaring (Some "application/json; charset=utf-8"))
            NoAuth)) /\
  In ReadBlob
    (log (Sample.exchange (Sample.declaring (Some "application/ld+json"))
            NoAuth)) /\
  In ReadBlob (log (Sample.exchange (Sample.declaring None) NoAuth)).
Proof.
  split; [|split].
  - destruct (C10_path_by_prefix _ _ _ _ _ _
                (Sample.declaring (Some "application/json; charset=utf-8"))
                (serving_obtains _ Sample.endpoint "hi" [] "chat-1") eq_refl)
      as (_ & _ & _ & _ & H).
    apply H. reflexivity.
  - destruct (C10_path_by_prefix _ _ _ _ _ _
                (Sample.declaring (Some "application/ld+json"))
                (serving_obtains _ Sample.endpoint "hi" [] "chat-1") eq_refl)
      as (_ & _ & _ & H & _).
    apply H. reflexivity.
  - destruct (C10_path_by_prefix _ _ _ _ _ _
                (Sample.declaring None)
                (serving_obtains _ Sample.endpoint "hi" [] "chat-1") eq_refl)
      as (_ & _ & H & _ & _).
    apply H. reflexivity.
Defined.

Lemma C6_empty_body_is_empty_sequence_witness :
  outcome (Sample.exchange (Sample.pdf []) NoAuth) = inr [] /\
  outcome (Sample.exchange (Sample.plain "   ") NoAuth) = inr [].
Proof.
  split.
  - apply (proj1 (C6_empty_body_is_empty_sequence
                    _ _ _ _ _ _ (Sample.pdf [])
                    (serving_obtains _ _ _ _ _) eq_refl)
             eq_refl {| blob_bytes := []; blob_type := "application/pdf" |});
      reflexivity.
  - apply (proj2 (C6_empty_body_is_empty_sequence
                    _ _ _ _ _ _ (Sample.plain "   ")
                    (serving_obtains _ _ _ _ _) eq_refl)
             eq_refl "   "); [reflexivity|].
    right. repeat constructor.
Defined.

(** ** Failures *)

Section Failures.

Variable P : Platform.
Variables (url text : JsString) (files : list File).
Variables (authConfig : AuthConfig) (chatId : JsString).

Local Abbreviation send :=
  (sendToWebhook P url text files authConfig chatId).
Local Abbreviation obtained :=
  (obtains P url text files authConfig chatId).

(** What a non-2xx response makes of the run: the body is read as text,
    and either the read fails or the HTTP error is thrown. *)
Lemma readResponse_not_ok (r : Response) (l : list Event) :
  ok r = false ->
  readResponse P r l =
  (match response_text r with
   | inr errorText =>
       inl (Exn Error
              ("Request failed: " +++ Str.ofNumber (status r) +++ " "
               +++ statusText r +++ ". Server response: " +++ errorText))
   | inl e => inl e
   end, l ++ [ReadText]).
Proof.
  intros H. unfold readResponse, bind, call, throw. rewrite H. simpl.
  now destruct (response_text r).
Qed.

(** C2, as the code has it.  For every response obtained with a non-2xx
    status whose body text is read, send fails with HttpError, and the
    message includes the numeric status code, the status text and the raw
    body text.  If reading the body fails, the read failure is not
    swallowed: send fails with it instead of the HTTP error, reworded as
    the network error when it is a TypeError. *)
Theorem C2_http_error (r : Response) :
  obtained r -> ok r = false ->
  (forall errorText,
      response_text r = inr errorText ->
      exists message,
        outcome send = inl (Exn Error message) /\
        errorKind (Exn Error message) = Some HttpError /\
        Str.occursIn (Str.ofNumber (status r)) message /\
        Str.occursIn (statusText r) message /\
        Str.occursIn errorText message) /\
  (forall e,
      response_text r = inl e ->
      outcome send =
      inl (if instanceofTypeError e then Exn Error networkError else e)).
Proof.
  intros Ho Hok.
  destruct (send_obtained P url text files authConfig chatId r Ho)
    as (init & _ & Hrun).
  unfold outcome. rewrite Hrun. unfold try_catch.
  rewrite readResponse_not_ok by assumption.
  split.
  - intros errorText ->. eexists. split; [reflexivity|].
    split; [reflexivity|]. split; [|split].
    + apply (occursIn_later _ "Request failed: "). apply occursIn_here.
    + apply (occursIn_later _ "Request failed: ").
      apply occursIn_later. apply (occursIn_later _ " ").
      apply occursIn_here.
    + apply (occursIn_later _ "Request failed: ").
      apply occursIn_later. apply (occursIn_later _ " ").
      apply occursIn_later. apply occursIn_end.
  - intros e ->. unfold networkCatch, throw.
    now destruct (instanceofTypeError e).
Qed.

End Failures.

Lemma C2_http_error_witness :
  outcome (Sample.exchange Sample.boom NoAuth)
  = inl (Exn Error
           "Request failed: 500 Internal Server Error. Server response: boom") /\
  errorKind
    (Exn Error
       "Request failed: 500 Internal Server Error. Server response: boom")
  = Some HttpError /\
  Str.occursIn "500"
    "Request failed: 500 Internal Server Error. Server response: boom" /\
  Str.occursIn "boom"
    "Request failed: 500 Internal Server Error. Server response: boom".
Proof.
  destruct (proj1 (C2_http_error _ _ _ _ _ _ Sample.boom
                     (serving_obtains _ Sample.endpoint "hi" [] "chat-1")
                     eq_refl) "boom" eq_refl)
    as (message & Ho & Hk & Hs & _ & Hb).
  assert (E : message
              = "Request failed: 500 Internal Server Error. Server response: boom").
  { revert Ho. unfold outcome. vm_compute. intros H. now injection H. }
  rewrite <- E. repeat split; assumption.
Defined.

(** C2 fails where the body cannot be read.  A 500 whose body read is
    rejected with a TypeError does not end in HttpError: the outer [catch]
    rewords the TypeError as the network error.  A read rejected with
    anything else comes out as it is. *)
Lemma C2_unreadable_body_counterexample :
  outcome (Sample.exchange
             (Browser.unreadable Sample.boom (Exn TypeError "network error"))
             NoAuth)
  = inl (Exn Error networkError) /\
  errorKind (Exn Error networkError) = Some NetworkError /\
  outcome (Sample.exchange
             (Browser.unreadable Sample.boom (Exn DOMException "AbortError"))
             NoAuth)
  = inl (Exn DOMException "AbortError") /\
  errorKind (Exn DOMException "AbortError") = None.
Proof. split; [|split; [|split]]; reflexivity. Qed.

(** ** The request *)

(** Text below the surrogates is well formed as it is. *)
Lemma toWellFormed_plain (s : JsString) :
  Forall (fun c => c < 55296) s -> Str.toWellFormed s = s.
Proof.
  induction 1 as [|c r Hc _ IH]; [reflexivity|].
  cbn [Str.toWellFormed]. unfold Str.isLead, Str.isTrail.
  replace (55296 <=? c) with false by (symmetry; apply N.leb_gt; lia).
  replace (56320 <=? c) with false by (symmetry; apply N.leb_gt; lia).
  cbn [andb]. now rewrite IH.
Qed.

(** Text without CR and LF has no line break to complete. *)
Lemma newlines_plain (s : JsString) :
  Forall (fun c => c <> 13 /\ c <> 10) s -> Multipart.newlines s = s.
Proof.
  induction 1 as [|c r [Hr Hn] _ IH]; [reflexivity|].
  cbn [Multipart.newlines].
  apply N.eqb_neq in Hr, Hn. now rewrite Hr, Hn, IH.
Qed.

Lemma escape_plain (s : JsString) :
  Forall (fun c => c <> 10 /\ c <> 13 /\ c <> 34) s ->
  Multipart.escape s = s.
Proof.
  induction 1 as [|c r (Hn & Hr & Hq) _ IH]; [reflexivity|].
  unfold Multipart.escape in *. cbn [flat_map].
  apply N.eqb_neq in Hn, Hr, Hq. now rewrite Hn, Hr, Hq, IH.
Qed.

Lemma digits_range (u : Decimal.uint) :
  Forall (fun c => 48 <= c <= 57) (Str.digits u).
Proof. induction u; simpl; constructor; try assumption; lia. Qed.

(** The name of an attachment field is stored, and written, as it is. *)
Lemma fileName_plain (index : N) :
  let name := "file" +++ Str.ofNumber index in
  Str.toWellFormed name = name /\
  Multipart.escape (Multipart.newlines name) = name.
Proof.
  intros name.
  assert (H : Forall (fun c => 48 <= c <= 122) name).
  { unfold name. apply Forall_app. split.
    - repeat constructor; lia.
    - eapply Forall_impl; [|apply digits_range]. simpl. lia. }
  split.
  - apply toWellFormed_plain. eapply Forall_impl; [|exact H]. simpl. lia.
  - rewrite newlines_plain by (eapply Forall_impl; [|exact H]; simpl; lia).
    apply escape_plain. eapply Forall_impl; [|exact H]. simpl. lia.
Qed.

Lemma forEach_fileFields (files : list File) (index : N) (fd : FormData) :
  forEach files index
    (fun file index fd =>
       append fd ("file" +++ Str.ofNumber index) (FormFile file)) fd
  = fd ++ fileFields index files.
Proof.
  revert index fd. induction files as [|file rest IH]; intros index fd;
    cbn [forEach fileFields].
  - now rewrite app_nil_r.
  - rewrite IH. unfold append.
    rewrite (proj1 (fileName_plain index)). now rewrite <- app_assoc.
Qed.

(** The form data of lines 66 to 72: the two texts as USVStrings, then
    the attachments. *)
Lemma buildFormData_fields (text : JsString) (files : list File)
  (chatId : JsString) :
  buildFormData text files chatId
  = ("text", FormString (Str.toWellFormed text))
    :: ("chatId", FormString (Str.toWellFormed chatId))
    :: fileFields 0 files.
Proof. unfold buildFormData. now rewrite forEach_fileFields. Qed.

Lemma fileFields_length (files : list File) (index : N) :
  length (fileFields index files) = length files.
Proof.
  revert index. induction files as [|f r IH]; intros index; simpl;
    [reflexivity | now rewrite IH].
Qed.

Lemma fileFields_nth (files : list File) (index : N) (i : nat) (file : File) :
  nth_error files i = Some file ->
  nth_error (fileFields index files) i
  = Some ("file" +++ Str.ofNumber (index + N.of_nat i), FormFile file).
Proof.
  revert index i. induction files as [|f r IH]; intros index [|i];
    cbn [fileFields nth_error]; try discriminate.
  - intros H. injection H as ->. now rewrite N.add_0_r.
  - intros H. rewrite (IH (index + 1) i H), Nat2N.inj_succ.
    now replace (index + N.succ (N.of_nat i)) with (index + 1 + N.of_nat i)
      by lia.
Qed.

(** Text with no surrogate, no CR and no LF is sent as it is. *)
Lemma plain_sentAsIs (s : JsString) :
  Forall (fun c => c < 55296 /\ c <> 13 /\ c <> 10) s ->
  Multipart.sentAsIs s = true.
Proof.
  intros H. unfold Multipart.sentAsIs.
  rewrite toWellFormed_plain, newlines_plain, eqb_refl; [reflexivity|..];
    (eapply Forall_impl; [|exact H]); simpl; tauto.
Qed.

Lemma encode_length (fd : FormData) :
  length (Multipart.encode fd) = length fd.
Proof. apply length_map. Qed.

Lemma encode_fileFields_nth (files : list File) (index : N) (i : nat)
  (file : File) :
  nth_error files i = Some file ->
  nth_error (Multipart.encode (fileFields index files)) i
  = Some (Multipart.FileField
            ("file" +++ Str.ofNumber (index + N.of_nat i))
            (Multipart.escape (file_name file)) file).
Proof.
  intros H. unfold Multipart.encode.
  rewrite nth_error_map, (fileFields_nth files index i file H).
  cbn [option_map Multipart.part].
  now rewrite (proj2 (fileName_plain (index + N.of_nat i))).
Qed.

Section Request.

Variable P : Platform.
Variables (url text : JsString) (files : list File).
Variables (authConfig : AuthConfig) (chatId : JsString).

Local Abbreviation send :=
  (sendToWebhook P url text files authConfig chatId).

Lemma afterBlob_readsResponse (rest : list Event) :
  Forall afterBlob rest -> Forall readsResponse rest.
Proof.
  intros H. eapply Forall_impl; [|exact H]. now intros [].
Qed.

(** Reading a response never fetches. *)
Lemma readResponse_log (r : Response) (l : list Event) :
  exists res rest,
    readResponse P r l = (res, l ++ rest) /\ Forall readsResponse rest.
Proof.
  destruct (ok r) eqn:Hok.
  - destruct (textual (contentTypeOf r)) eqn:Ht.
    + rewrite readResponse_textual by assumption.
      destruct (textResponse_log P r l) as (res & ->).
      exists res, [ReadText]. split; [reflexivity | now repeat constructor].
    + rewrite readResponse_binary by assumption.
      destruct (fileResponse_log P r (contentTypeOf r) l)
        as (res & rest & -> & H).
      exists res, (ReadBlob :: rest). split; [reflexivity|].
      constructor; [exact I | now apply afterBlob_readsResponse].
  - rewrite readResponse_not_ok by assumption.
    eexists _, [ReadText]. split; [reflexivity | now repeat constructor].
Qed.

(** One fetch opens the log of every call whose headers are built, and
    nothing is logged when they are not. *)
Lemma send_fetches_once :
  match authHeaders authConfig with
  | inr headers =>
      exists rest,
        log send = Fetch (request url text files chatId headers) :: rest /\
        Forall readsResponse rest
  | inl e => send [] = (inl e, [])
  end.
Proof.
  destruct (authHeaders authConfig) as [e|headers] eqn:Hh.
  - unfold sendToWebhook, bind, lift. now rewrite Hh.
  - unfold log. rewrite (send_issued P url text files authConfig chatId
                           headers Hh). cbn zeta.
    destruct (fetch P _) as [e|r].
    + exists []. split; [apply networkCatch_log | constructor].
    + destruct (readResponse_log r [Fetch (request url text files chatId
                                             headers)])
        as (res & rest & H & Hr).
      exists rest. split; [|exact Hr].
      now apply (try_catch_log _ _ _ res).
Qed.

(** The parts written for the form data, whatever the texts are: the two
    texts well formed and with their line breaks completed, then one part
    per attachment. *)
Lemma multipart_parts :
  Multipart.encode (buildFormData text files chatId)
  = Multipart.Field "text" (Multipart.newlines (Str.toWellFormed text))
    :: Multipart.Field "chatId"
         (Multipart.newlines (Str.toWellFormed chatId))
    :: Multipart.encode (fileFields 0 files).
Proof. now rewrite buildFormData_fields. Qed.

Lemma sentAsIs_spec (s : JsString) :
  Multipart.sentAsIs s = true ->
  Multipart.newlines (Str.toWellFormed s) = s.
Proof.
  unfold Multipart.sentAsIs. intros H.
  apply andb_prop in H. destruct H as [Hw Hn].
  apply eqb_eq in Hw, Hn. now rewrite Hw.
Qed.

(** C9.  For every invocation of send with message text [text] and
    session identifier [chatId] that hold no lone surrogate and no bare
    CR or LF, and attachments [files], the multipart body handed to fetch
    holds the field [text] with the message text (empty or not), the
    field [chatId] with the session identifier, and exactly one field per
    attachment, named [file0], [file1], ... in the order the attachments
    were supplied. *)
Theorem C9_multipart_fields :
  Multipart.sentAsIs text = true -> Multipart.sentAsIs chatId = true ->
  let body := Multipart.encode (buildFormData text files chatId) in
  nth_error body 0 = Some (Multipart.Field "text" text) /\
  nth_error body 1 = Some (Multipart.Field "chatId" chatId) /\
  length body = (2 + length files)%nat /\
  (forall i file,
      nth_error files i = Some file ->
      nth_error body (2 + i)
      = Some (Multipart.FileField
                ("file" +++ Str.ofNumber (N.of_nat i))
                (Multipart.escape (file_name file)) file)) /\
  (forall q, In (Fetch q) (log send) ->
             Multipart.encode (req_body q) = body) /\
  (forall headers,
      authHeaders authConfig = inr headers ->
      exists init rest,
        log send = Fetch init :: rest /\
        req_url init = url /\ req_method init = "POST" /\
        Multipart.encode (req_body init) = body /\
        req_headers init = headers).
Proof.
  intros Ht Hc body. unfold body. rewrite multipart_parts.
  rewrite (sentAsIs_spec text Ht), (sentAsIs_spec chatId Hc).
  split; [reflexivity|]. split; [reflexivity|].
  split; [cbn [length]; now rewrite encode_length, fileFields_length|].
  split; [intros i file H; cbn [Nat.add nth_error];
          now rewrite (encode_fileFields_nth files 0 i file H)|].
  assert (B : Multipart.encode (buildFormData text files chatId)
              = Multipart.Field "text" text
                :: Multipart.Field "chatId" chatId
                :: Multipart.encode (fileFields 0 files)).
  { rewrite multipart_parts.
    now rewrite (sentAsIs_spec text Ht), (sentAsIs_spec chatId Hc). }
  pose proof send_fetches_once as L.
  destruct (authHeaders authConfig) as [e|headers].
  - split; [|discriminate].
    intros q. unfold log. rewrite L. intros [].
  - destruct L as (rest & L & Hr). rewrite L. split.
    + intros q [E|E].
      * injection E as <-. exact B.
      * rewrite Forall_forall in Hr. now apply Hr in E.
    + intros h E. injection E as <-.
      eexists _, rest. split; [reflexivity|].
      split; [reflexivity|]. split; [reflexivity|].
      split; [exact B | reflexivity].
Qed.

End Request.

Lemma C9_multipart_fields_witness :
  nth_error
    (Multipart.encode (buildFormData "hi" Sample.threeFiles "chat-1")) 4
  = Some (Multipart.FileField "file2" "c.png"
            (Sample.attachment "c.png")) /\
  exists rest,
    log (sendToWebhook (Browser.serving (inr (Browser.json "[]")))
           Sample.endpoint "hi" Sample.threeFiles NoAuth "chat-1")
    = Fetch {| req_url := Sample.endpoint;
               req_method := "POST";
               req_body :=
                 [("text", FormString "hi");
                  ("chatId", FormString "chat-1");
                  ("file0", FormFile (Sample.attachment "a.png"));
                  ("file1", FormFile (Sample.attachment "b.png"));
                  ("file2", FormFile (Sample.attachment "c.png"))];
               req_headers := [] |} :: rest.
Proof.
  destruct (C9_multipart_fields (Browser.serving (inr (Browser.json "[]")))
              Sample.endpoint "hi" Sample.threeFiles NoAuth "chat-1"
              eq_refl eq_refl)
    as (_ & _ & _ & Hfile & _ & Hfetch).
  split.
  - exact (Hfile 2%nat (Sample.attachment "c.png") eq_refl).
  - destruct (Hfetch [] eq_refl) as (init & rest & Hlog & _).
    exists rest. rewrite Hlog. revert Hlog. unfold log.
    vm_compute. intros H. now injection H as <- _.
Defined.

(** C9 against the platform.  A lone surrogate in the message text is
    stored by [FormData.append] as U+FFFD, and a bare LF is written as
    CR LF: the field [text] of the body that is fetched is not the text
    that was given. *)
Lemma C9_text_is_converted_counterexample :
  (exists init rest,
      log (sendToWebhook (Browser.serving (inr (Browser.json "[]")))
             Sample.endpoint [97; 55296; 98] [] NoAuth "chat-1")
      = Fetch init :: rest /\
      nth_error (Multipart.encode (req_body init)) 0
      = Some (Multipart.Field "text" [97; 65533; 98])) /\
  (exists init rest,
      log (sendToWebhook (Browser.serving (inr (Browser.json "[]")))
             Sample.endpoint [97; 10; 98] [] NoAuth "chat-1")
      = Fetch init :: rest /\
      nth_error (Multipart.encode (req_body init)) 0
      = Some (Multipart.Field "text" [97; 13; 10; 98])) /\
  Multipart.Field "text" [97; 65533; 98]
  <> Multipart.Field "text" [97; 55296; 98] /\
  Multipart.Field "text" [97; 13; 10; 98]
  <> Multipart.Field "text" [97; 10; 98].
Proof.
  split; [|split; [|split]].
  - eexists _, _. split; reflexivity.
  - eexists _, _. split; reflexivity.
  - discriminate.
  - discriminate.
Qed.

(** ** Authentication headers *)

Lemma authHeaders_none : authHeaders NoAuth = inr [].
Proof. reflexivity. Qed.

(** Basic credentials within Latin-1: one [Authorization] header iff a
    field is given, an unset field standing as the empty string. *)
Lemma authHeaders_basic (username password : option JsString) :
  Base64.latin1 (orEmpty username +++ ":" +++ orEmpty password) = true ->
  authHeaders (BasicAuth username password)
  = inr (if given username || given password
         then [("Authorization",
                "Basic " +++ Base64.encodeN (orEmpty username +++ ":"
                                             +++ orEmpty password))]
         else []).
Proof.
  intros H. unfold authHeaders, Base64.btoa. rewrite H.
  now destruct (given username || given password).
Qed.

(** A custom header under any name but [__proto__]: emitted iff name and
    value are both given. *)
Lemma authHeaders_header (headerName headerValue : option JsString) :
  orEmpty headerName <> "__proto__" ->
  authHeaders (HeaderAuth headerName headerValue)
  = inr (if given headerName && given headerValue
         then [(orEmpty headerName, orEmpty headerValue)]
         else []).
Proof.
  intros H. unfold authHeaders, Obj.set. rewrite (eqb_neq _ _ H).
  now destruct (given headerName && given headerValue).
Qed.

(** The name [__proto__] reaches the inherited setter and leaves the
    headers empty. *)
Lemma authHeaders_proto (headerValue : JsString) :
  authHeaders (HeaderAuth (Some "__proto__") (Some headerValue)) = inr [].
Proof. unfold authHeaders. now destruct (given _ && given _). Qed.

Lemma authHeaders_jwt (token : option JsString) :
  authHeaders (JwtAuth token)
  = inr (if given token
         then [("Authorization", "Bearer " +++ orEmpty token)]
         else []).
Proof. unfold authHeaders. now destruct (given token). Qed.

Lemma authHeaders_samples :
  authHeaders (BasicAuth (Some "user") (Some "pass"))
  = inr [("Authorization", "Basic dXNlcjpwYXNz")] /\
  authHeaders (BasicAuth (Some "token") None)
  = inr [("Authorization", "Basic dG9rZW46")] /\
  authHeaders (BasicAuth None (Some "pw"))
  = inr [("Authorization", "Basic OnB3")] /\
  authHeaders (BasicAuth (Some []) None) = inr [] /\
  authHeaders (HeaderAuth (Some "X-API-Key") (Some "k1"))
  = inr [("X-API-Key", "k1")] /\
  authHeaders (HeaderAuth (Some "X-API-Key") None) = inr [] /\
  authHeaders (HeaderAuth None (Some "k1")) = inr [].
Proof. repeat split. Qed.

(** C4 against the code.  Basic credentials with a character beyond U+00FF
    (the user [admin] with a Cyrillic password): a field is given, so the
    claim has the [Authorization: Basic] header emitted; [btoa] throws
    InvalidCharacterError instead, before the [try], and the call is
    rejected with it without any request being made. *)
Theorem C4_basic_auth_beyond_latin1_throws :
  given (Some "admin") || given (Some Sample.cyrillic) = true /\
  authHeaders (BasicAuth (Some "admin") (Some Sample.cyrillic))
  = inl (Exn DOMException "InvalidCharacterError") /\
  sendToWebhook (Browser.serving (inr (Browser.json "[]")))
    Sample.endpoint "hi" []
    (BasicAuth (Some "admin") (Some Sample.cyrillic)) "chat-1" []
  = (inl (Exn DOMException "InvalidCharacterError"), []).
Proof. repeat split. Qed.

(** ** The file item *)

Lemma split_no_separator (s : JsString) (sep : N) :
  ~ In sep s -> Str.split s sep = [s].
Proof.
  induction s as [|c s IH]; simpl; intros H; [reflexivity|].
  destruct (c =? sep) eqn:E.
  - apply N.eqb_eq in E. elim H. now left.
  - rewrite IH; [reflexivity|]. intros Hin. apply H. now right.
Qed.

Lemma split_at_separator (a b : JsString) (sep : N) :
  ~ In sep a -> Str.split (a ++ sep :: b) sep = a :: Str.split b sep.
Proof.
  induction a as [|c a IH]; simpl; intros H.
  - now rewrite N.eqb_refl.
  - destruct (c =? sep) eqn:E.
    + apply N.eqb_eq in E. elim H. now left.
    + rewrite IH; [reflexivity|]. intros Hin. apply H. now right.
Qed.

Lemma alphabet_no_comma (n : N) : Base64.alphabet n <> 44.
Proof.
  unfold Base64.alphabet.
  destruct (n <? 26); [lia|]. destruct (n <? 52); [lia|].
  destruct (n <? 62); [lia|]. destruct (n =? 62); lia.
Qed.

Lemma encodeN_no_comma (bs : list N) : ~ In 44 (Base64.encodeN bs).
Proof.
  assert (H : forall n bs, (length bs <= n)%nat ->
                           ~ In 44 (Base64.encodeN bs)).
  { clear bs. induction n as [|n IH]; intros bs Hl.
    - destruct bs; [intros [] | simpl in Hl; lia].
    - destruct bs as [|a [|b [|c rest]]]; simpl.
      + intros [].
      + intros [E|[E|[E|[E|[]]]]];
          try (now apply alphabet_no_comma in E); discriminate.
      + intros [E|[E|[E|[E|[]]]]];
          try (now apply alphabet_no_comma in E); discriminate.
      + intros [E|[E|[E|[E|E]]]];
          try (now apply alphabet_no_comma in E).
        revert E. apply IH. simpl in Hl. lia. }
  now apply (H (length bs)).
Qed.

(** What [blobToBase64] keeps of a data URL whose media type has no comma:
    the base64 text. *)
Lemma dataURL_payload (b : Blob) :
  ~ In 44 (blob_type b) ->
  nth_error (Str.split (Browser.dataURL b) 44) 1
  = Some (Base64.encode (blob_bytes b)).
Proof.
  intros H. unfold Browser.dataURL.
  replace ("data:" +++ blob_type b +++ ";base64,"
           +++ Base64.encode (blob_bytes b))
    with (("data:" +++ blob_type b +++ ";base64")
          ++ 44 :: Base64.encode (blob_bytes b))
    by (simpl; now rewrite <- app_assoc).
  rewrite split_at_separator.
  - rewrite split_no_separator; [reflexivity | apply encodeN_no_comma].
  - rewrite !in_app_iff. simpl. intuition discriminate.
Qed.

Lemma getExtensionFromMimeType_samples :
  getExtensionFromMimeType "application/pdf" = Ext "pdf" /\
  getExtensionFromMimeType "Application/PDF; q=1" = Ext "pdf" /\
  getExtensionFromMimeType "image/svg+xml" = Ext "svg" /\
  getExtensionFromMimeType "application/ld+json" = Ext "ld" /\
  getExtensionFromMimeType "application/x-tar" = Ext "x-tar" /\
  getExtensionFromMimeType "application/" = Ext "bin" /\
  getExtensionFromMimeType "unknown" = Ext "bin" /\
  getExtensionFromMimeType [] = Ext "bin" /\
  getExtensionFromMimeType "constructor" = ExtBuiltin "constructor".
Proof. repeat split. Qed.

Lemma getMessageType_samples :
  getMessageType "image/png" = "image" /\
  getMessageType "video/mp4" = "video" /\
  getMessageType "audio/mpeg" = "audio" /\
  getMessageType "application/pdf" = "file" /\
  getMessageType [] = "file".
Proof. repeat split. Qed.

Section FileItem.

Variable P : Platform.
Variables (url text : JsString) (files : list File).
Variables (authConfig : AuthConfig) (chatId : JsString).

Local Abbreviation send :=
  (sendToWebhook P url text files authConfig chatId).
Local Abbreviation obtained :=
  (obtains P url text files authConfig chatId).

(** Looking for a file name in the header logs nothing. *)
Lemma dispositionFileName_log (d : option JsString) (l : list Event) :
  dispositionFileName d l = (outcome (dispositionFileName d), l).
Proof.
  unfold outcome, dispositionFileName, bind, lift, ret.
  destruct (given d && Str.includes (orEmpty d) "attachment");
    [|reflexivity].
  destruct (Regex.filenameRegex_exec (orEmpty d)) as [m|]; [|reflexivity].
  destruct (Str.truthy m); [|reflexivity].
  now destruct (Uri.decodeURIComponent (Regex.stripQuotes m)).
Qed.

(** A non-empty body on the binary path, read by a FileReader that loads,
    whose Content-Disposition header (if any) is gone through without an
    exception: one item, its kind by prefix of the MIME type, its content
    the second comma-separated part of the data URL, its name the one the
    header gives or else the synthesized one. *)
Lemma file_item (r : Response) (b : Blob) (result : JsString)
  (name : option JsString) :
  obtained r -> ok r = true -> textual (contentTypeOf r) = false ->
  response_blob r = inr b -> blob_size b <> 0 ->
  reader_error (readAsDataURL P b) = false ->
  reader_result (readAsDataURL P b) = Some result ->
  outcome (dispositionFileName (headers_get r "content-disposition"))
  = inr name ->
  let mime := orElse (blob_type b) (contentTypeOf r) in
  outcome send =
  inr [VObj
         [("type", VStr (getMessageType mime));
          ("content",
           match nth_error (Str.split result 44) 1 with
           | Some part => VStr part
           | None => VUndefined
           end);
          ("fileName",
           VStr (if given name then orEmpty name
                 else "file-" +++ stamp (now_toISOString P) +++ "."
                      +++ showExtension (getExtensionFromMimeType mime)));
          ("mimeType", VStr mime)]].
Proof.
  intros Ho Hok Ht Hb Hs He Hr Hd mime.
  destruct (send_obtained P url text files authConfig chatId r Ho)
    as (init & _ & Hrun).
  unfold outcome. rewrite Hrun. unfold try_catch.
  rewrite readResponse_binary by assumption.
  apply N.eqb_neq in Hs.
  unfold fileResponse, blobToBase64, bind, call, ret.
  rewrite Hb, Hs, He, Hr, dispositionFileName_log, Hd.
  now destruct (given name).
Qed.

(** Without the header there is no name to take: the name is
    synthesized. *)
Lemma no_header_no_name :
  outcome (dispositionFileName None) = inr None.
Proof. reflexivity. Qed.

End FileItem.

(** The specification's PDF: ten bytes declared [application/pdf], no
    Content-Disposition. *)
Lemma pdf_sample :
  outcome (Sample.exchange (Sample.pdf "0123456789") NoAuth)
  = inr [VObj
           [("type", VStr "file");
            ("content", VStr "MDEyMzQ1Njc4OQ==");
            ("fileName", VStr "file-2025-03-09_14-05-59.pdf");
            ("mimeType", VStr "application/pdf")]] /\
  Str.endsWith "file-2025-03-09_14-05-59.pdf" ".pdf".
Proof. split; [reflexivity | now exists "file-2025-03-09_14-05-59"]. Qed.

(** A blob type with a comma in it: the part kept of the data URL is not
    the base64 text. *)
Lemma comma_in_type_sample :
  let b := {| blob_bytes := Browser.bytesOf "0123456789";
              blob_type := Browser.dq "a/b;x='1,2'" |} in
  nth_error (Str.split (Browser.dataURL b) 44) 1
  = Some (Browser.dq "2';base64") /\
  Base64.encode (blob_bytes b) = "MDEyMzQ1Njc4OQ==".
Proof. split; reflexivity. Qed.

(** C7 against the code.  A non-empty PDF sent with the header
    [Content-Disposition: attachment; filename=Q50%.pdfQ] (Q the double
    quote): the claim has every such call succeed with one item; the
    regular expression captures the quoted name, the quotes are stripped,
    and [decodeURIComponent] throws URIError on the lone percent sign, so
    the call is rejected with it. *)
Theorem C7_percent_in_filename_is_rejected :
  headers_get Sample.percentPdf "content-disposition"
  = Some (Browser.dq "attachment; filename='50%.pdf'") /\
  Regex.filenameRegex_exec (Browser.dq "attachment; filename='50%.pdf'")
  = Some (Browser.dq "'50%.pdf'") /\
  Regex.stripQuotes (Browser.dq "'50%.pdf'") = "50%.pdf" /\
  Uri.decodeURIComponent "50%.pdf" = inl (Exn URIError "URI malformed") /\
  outcome (Sample.exchange Sample.percentPdf NoAuth)
  = inl (Exn URIError "URI malformed").
Proof. repeat split. Qed.

(** * Further properties of the service *)

(** ** Failures of the transport *)

Lemma authHeaders_failure (authConfig : AuthConfig) (e : JsExn) :
  authHeaders authConfig = inl e ->
  e = Exn DOMException "InvalidCharacterError" /\
  exists username password,
    authConfig = BasicAuth username password /\
    Base64.latin1 (orEmpty username +++ ":" +++ orEmpty password) = false.
Proof.
  destruct authConfig as [|u p|n v|t]; cbn [authHeaders];
    try discriminate.
  - destruct (given u || given p); [|discriminate].
    unfold Base64.btoa.
    destruct (Base64.latin1 (orEmpty u +++ ":" +++ orEmpty p)) eqn:E;
      [discriminate|].
    intros H. injection H as <-. split; [reflexivity|]. now exists u, p.
  - now destruct (given n && given v).
  - now destruct (given t).
Qed.

(** The headers object holds one header at most, and building it fails in
    one way only: Basic credentials outside Latin-1, on which [btoa]
    throws InvalidCharacterError. *)
Theorem authHeaders_one_header_or_btoa_failure (authConfig : AuthConfig) :
  match authHeaders authConfig with
  | inr headers => (length headers <= 1)%nat
  | inl e =>
      e = Exn DOMException "InvalidCharacterError" /\
      exists username password,
        authConfig = BasicAuth username password /\
        Base64.latin1 (orEmpty username +++ ":" +++ orEmpty password) = false
  end.
Proof.
  destruct (authHeaders authConfig) as [e|headers] eqn:H.
  - now apply authHeaders_failure.
  - destruct authConfig as [|u p|n v|t]; cbn [authHeaders] in H.
    + injection H as <-. simpl. lia.
    + destruct (given u || given p); [|injection H as <-; simpl; lia].
      destruct (Base64.btoa _); [discriminate|].
      injection H as <-. simpl. lia.
    + destruct (given n && given v); [|injection H as <-; simpl; lia].
      injection H as <-. unfold Obj.set.
      destruct (Str.eqb (orEmpty n) "__proto__"); simpl; lia.
    + destruct (given t); injection H as <-; simpl; lia.
Qed.

Lemma networkCatch_outcome (e : JsExn) (l : list Event) :
  networkCatch e l
  = (inl (if instanceofTypeError e then Exn Error networkError else e), l).
Proof. unfold networkCatch, throw. now destruct (instanceofTypeError e). Qed.

Lemma networkCatch_not_TypeError (e e' : JsExn) (l : list Event) :
  fst (networkCatch e l) = inl e' -> instanceofTypeError e' = false.
Proof.
  rewrite networkCatch_outcome. simpl. intros H. injection H as <-.
  now destruct (instanceofTypeError e) eqn:E.
Qed.

Section Transport.

Variable P : Platform.
Variables (url text : JsString) (files : list File).
Variables (authConfig : AuthConfig) (chatId : JsString).

Local Abbreviation send :=
  (sendToWebhook P url text files authConfig chatId).
Local Abbreviation obtained :=
  (obtains P url text files authConfig chatId).

(** When the fetch itself is rejected nothing is read: a TypeError (how
    the platform reports an unreachable host or a CORS refusal) comes out
    as the network error of line 190, any other rejection as it is. *)
Theorem fetch_rejection_is_network_error (headers : Obj.t) (e : JsExn) :
  authHeaders authConfig = inr headers ->
  fetch P (request url text files chatId headers) = inl e ->
  send [] =
  (inl (if instanceofTypeError e then Exn Error networkError else e),
   [Fetch (request url text files chatId headers)]) /\
  errorKind (Exn Error networkError) = Some NetworkError.
Proof.
  intros Hh Hf. split; [|reflexivity].
  rewrite (send_issued P url text files authConfig chatId headers Hh).
  cbn zeta. rewrite Hf. apply networkCatch_outcome.
Qed.

(** No call is ever rejected with a TypeError: inside the [try] the outer
    [catch] rewords each one, and before it only [btoa] can throw. *)
Theorem send_never_rejects_with_TypeError (e : JsExn) :
  outcome send = inl e -> instanceofTypeError e = false.
Proof.
  unfold outcome.
  destruct (authHeaders authConfig) as [e0|headers] eqn:Hh.
  - unfold sendToWebhook, bind, lift. rewrite Hh. simpl.
    intros H. injection H as <-.
    now destruct (authHeaders_failure authConfig e0 Hh) as (-> & _).
  - rewrite (send_issued P url text files authConfig chatId headers Hh).
    cbn zeta. destruct (fetch P _) as [e0|r].
    + apply networkCatch_not_TypeError.
    + unfold try_catch.
      destruct (readResponse P r _) as [[e1|items] l].
      * apply networkCatch_not_TypeError.
      * discriminate.
Qed.

(** A non-2xx response never yields items, whatever its content type and
    body: the body is read as text, never as a blob, and the call
    fails. *)
Theorem not_ok_never_succeeds (r : Response) :
  obtained r -> ok r = false ->
  (exists e, outcome send = inl e) /\
  exists init,
    issued url text files authConfig chatId = Some init /\
    log send = [Fetch init; ReadText].
Proof.
  intros Ho Hok.
  destruct (send_obtained P url text files authConfig chatId r Ho)
    as (init & Hi & Hrun).
  unfold outcome, log. rewrite Hrun. unfold try_catch.
  rewrite readResponse_not_ok by assumption.
  split.
  - destruct (response_text r) as [e|errorText];
      rewrite networkCatch_outcome; simpl; eauto.
  - exists init. split; [exact Hi|].
    destruct (response_text r) as [e|errorText];
      now rewrite networkCatch_outcome.
Qed.

End Transport.

Lemma fetch_rejection_is_network_error_witness :
  sendToWebhook (Browser.serving (inl (Exn TypeError "Failed to fetch")))
    Sample.endpoint "hi" [] NoAuth "chat-1" []
  = (inl (Exn Error networkError),
     [Fetch (request Sample.endpoint "hi" [] "chat-1" [])]).
Proof.
  apply (fetch_rejection_is_network_error
           (Browser.serving (inl (Exn TypeError "Failed to fetch")))
           Sample.endpoint "hi" [] NoAuth "chat-1" []
           (Exn TypeError "Failed to fetch")); reflexivity.
Defined.

Lemma send_never_rejects_with_TypeError_witness :
  instanceofTypeError (Exn Error networkError) = false.
Proof.
  apply (send_never_rejects_with_TypeError
           (Browser.serving
              (inr (Browser.unreadable (Sample.pdf "0123456789")
                      (Exn TypeError "network error"))))
           Sample.endpoint "hi" [] NoAuth "chat-1").
  reflexivity.
Defined.

Lemma not_ok_never_succeeds_witness :
  exists e, outcome (Sample.exchange Sample.boom NoAuth) = inl e.
Proof.
  apply (not_ok_never_succeeds _ _ _ _ _ _ Sample.boom).
  - apply serving_obtains.
  - reflexivity.
Defined.

(** ** The binary path *)

Lemma getMessageType_kinds (mimeType : JsString) :
  In (getMessageType mimeType) ["image"; "video"; "audio"; "file"].
Proof.
  unfold getMessageType.
  destruct (Str.startsWith mimeType "image/"); [now left|].
  destruct (Str.startsWith mimeType "video/"); [now right; left|].
  destruct (Str.startsWith mimeType "audio/"); simpl; tauto.
Qed.

Section BinaryPath.

Variable P : Platform.
Variables (url text : JsString) (files : list File).
Variables (authConfig : AuthConfig) (chatId : JsString).

Local Abbreviation send :=
  (sendToWebhook P url text files authConfig chatId).
Local Abbreviation obtained :=
  (obtains P url text files authConfig chatId).

(** How [blobToBase64] settles: rejected with the reader's error event,
    rejected with its own Error when the reader has no string to give,
    and otherwise resolved with what stands between the first comma of
    the result and the second, or the end of the result when there is
    one comma only (for a data URL, the payload): what follows a second
    comma is dropped.  A result with no comma resolves with
    [undefined]. *)
Theorem blobToBase64_settles (b : Blob) :
  (reader_error (readAsDataURL P b) = true ->
   outcome (blobToBase64 P b) = inl (Exn ProgressEvent [])) /\
  (reader_error (readAsDataURL P b) = false ->
   reader_result (readAsDataURL P b) = None ->
   outcome (blobToBase64 P b)
   = inl (Exn Error "Failed to read blob as a data URL.")) /\
  (forall prefix payload rest,
      reader_error (readAsDataURL P b) = false ->
      reader_result (readAsDataURL P b)
      = Some (prefix ++ 44 :: payload ++ rest) ->
      ~ In 44 prefix -> ~ In 44 payload ->
      rest = [] \/ (exists dropped, rest = 44 :: dropped) ->
      outcome (blobToBase64 P b) = inr (VStr payload)) /\
  (forall result,
      reader_error (readAsDataURL P b) = false ->
      reader_result (readAsDataURL P b) = Some result ->
      ~ In 44 result ->
      outcome (blobToBase64 P b) = inr VUndefined).
Proof.
  unfold outcome, blobToBase64, call. simpl.
  split; [now intros ->|]. split; [now intros -> ->|]. split.
  - intros prefix payload rest -> -> Hp Hq [->|(dropped & ->)].
    + rewrite app_nil_r.
      rewrite split_at_separator, split_no_separator by assumption.
      reflexivity.
    + rewrite !split_at_separator by assumption. reflexivity.
  - intros result -> -> Hr. now rewrite split_no_separator.
Qed.

(** On the binary path a call that succeeds returns nothing for an empty
    blob and, for any other, exactly one item: an object with the four
    members [type], [content], [fileName], [mimeType], whose type is one
    of image, video, audio, file (never text) by prefix of the blob's
    type, or of the content type when the blob has none. *)
Theorem binary_path_one_item (r : Response) (items : list JsValue) :
  obtained r -> ok r = true -> textual (contentTypeOf r) = false ->
  outcome send = inr items ->
  exists b,
    response_blob r = inr b /\
    let mime := orElse (blob_type b) (contentTypeOf r) in
    (blob_size b = 0 /\ items = []) \/
    (blob_size b <> 0 /\
     In (getMessageType mime) ["image"; "video"; "audio"; "file"] /\
     exists content fileName,
       items = [VObj [("type", VStr (getMessageType mime));
                      ("content", content);
                      ("fileName", VStr fileName);
                      ("mimeType", VStr mime)]]).
Proof.
  intros Ho Hok Ht.
  destruct (send_obtained P url text files authConfig chatId r Ho)
    as (init & _ & Hrun).
  unfold outcome. rewrite Hrun. unfold try_catch.
  rewrite readResponse_binary by assumption.
  unfold fileResponse, bind, call, ret.
  destruct (response_blob r) as [e|b].
  { rewrite networkCatch_outcome. discriminate. }
  intros Hout. exists b. split; [reflexivity|]. revert Hout.
  destruct (blob_size b =? 0) eqn:Hs.
  { intros Hout. injection Hout as <-. left. now apply N.eqb_eq in Hs. }
  apply N.eqb_neq in Hs. intros Hout. right. split; [exact Hs|].
  split; [apply getMessageType_kinds|]. revert Hout.
  destruct (blobToBase64 P b _) as [[e|content] l];
    [rewrite networkCatch_outcome; discriminate|].
  rewrite dispositionFileName_log.
  destruct (outcome (dispositionFileName _)) as [e|name];
    [rewrite networkCatch_outcome; discriminate|].
  destruct (given name); simpl; intros Hout; injection Hout as <-; eauto.
Qed.

End BinaryPath.

Lemma blobToBase64_settles_witness :
  outcome (blobToBase64 (Browser.serving (inr (Sample.pdf "0123456789")))
             {| blob_bytes := Browser.bytesOf "0123456789";
                blob_type := "application/pdf" |})
  = inr (VStr "MDEyMzQ1Njc4OQ==").
Proof.
  destruct (blobToBase64_settles
              (Browser.serving (inr (Sample.pdf "0123456789")))
              {| blob_bytes := Browser.bytesOf "0123456789";
                 blob_type := "application/pdf" |})
    as (_ & _ & H & _).
  apply (H "data:application/pdf;base64" "MDEyMzQ1Njc4OQ==" []);
    try reflexivity; try (now left); simpl; intuition discriminate.
Defined.

Lemma binary_path_one_item_witness :
  exists b,
    response_blob (Sample.pdf "0123456789") = inr b /\
    ((blob_size b = 0 /\
      [VObj [("type", VStr "file");
             ("content", VStr "MDEyMzQ1Njc4OQ==");
             ("fileName", VStr "file-2025-03-09_14-05-59.pdf");
             ("mimeType", VStr "application/pdf")]] = []) \/
     (blob_size b <> 0 /\
      In (getMessageType (orElse (blob_type b) "application/pdf"))
        ["image"; "video"; "audio"; "file"] /\
      exists content fileName,
        [VObj [("type", VStr "file");
               ("content", VStr "MDEyMzQ1Njc4OQ==");
               ("fileName", VStr "file-2025-03-09_14-05-59.pdf");
               ("mimeType", VStr "application/pdf")]]
        = [VObj [("type",
                  VStr (getMessageType
                          (orElse (blob_type b) "application/pdf")));
                 ("content", content);
                 ("fileName", VStr fileName);
                 ("mimeType",
                  VStr (orElse (blob_type b) "application/pdf"))]])).
Proof.
  apply (binary_path_one_item
           (Browser.serving (inr (Sample.pdf "0123456789")))
           Sample.endpoint "hi" [] NoAuth "chat-1"
           (Sample.pdf "0123456789")).
  - apply serving_obtains.
  - reflexivity.
  - reflexivity.
  - reflexivity.
Defined.

(** ** The file name *)

Lemma quoted_closes (q : N) (name : JsString) :
  Forall (fun c => c <> q /\ Regex.lineTerminator c = false) name ->
  Regex.quoted q (name ++ [q]) = Some (name ++ [q]).
Proof.
  induction 1 as [|c r [Hq Hl] _ IH]; simpl.
  - now rewrite N.eqb_refl.
  - apply N.eqb_neq in Hq. now rewrite Hq, Hl, IH.
Qed.

Lemma stripQuotes_plain (name : JsString) :
  Forall (fun c => Regex.quote c = false) name ->
  Regex.stripQuotes name = name.
Proof.
  induction 1 as [|c r Hc _ IH]; simpl; [reflexivity|].
  now rewrite Hc, IH.
Qed.

Lemma stripQuotes_quoted (q : N) (name : JsString) :
  Regex.quote q = true ->
  Forall (fun c => Regex.quote c = false) name ->
  Regex.stripQuotes (q :: name ++ [q]) = name.
Proof.
  intros Hq Hn. unfold Regex.stripQuotes. simpl. rewrite Hq. simpl.
  rewrite filter_app. simpl. rewrite Hq. simpl. rewrite app_nil_r.
  now apply stripQuotes_plain.
Qed.

Lemma decode_plain (s : JsString) :
  ~ In 37 s -> Uri.decode None s = Some s.
Proof.
  induction s as [|c r IH]; simpl; intros H; [reflexivity|].
  destruct (c =? 37) eqn:E.
  - apply N.eqb_eq in E. elim H. now left.
  - rewrite IH; [reflexivity|]. intros Hin. apply H. now right.
Qed.

Lemma plainName_parts (name : JsString) :
  plainName name ->
  Forall (fun c => Regex.quote c = false) name /\
  (forall q, Regex.quote q = true ->
             Forall (fun c => c <> q /\ Regex.lineTerminator c = false) name)
  /\ ~ In 37 name.
Proof.
  intros H. unfold plainName in H. rewrite Forall_forall in H.
  repeat split.
  - apply Forall_forall. intros c Hc. now apply H.
  - intros q Hq. apply Forall_forall. intros c Hc.
    destruct (H c Hc) as (Hcq & Hl & _). split; [|exact Hl].
    intros ->. congruence.
  - intros Hin. now destruct (H 37 Hin) as (_ & _ & E).
Qed.

(** The header the README asks for, [attachment; filename=QnameQ] with a
    plain, non-empty name between quotes: the name is what the header
    gives. *)
Lemma attachment_header_name (q : N) (name : JsString) :
  Regex.quote q = true -> plainName name -> name <> [] ->
  outcome (dispositionFileName (Some (attachmentHeader q name)))
  = inr (Some name).
Proof.
  intros Hq Hn Hne.
  destruct (plainName_parts name Hn) as (Hnq & Hcl & Hp).
  unfold outcome, dispositionFileName, attachmentHeader, bind, lift, ret.
  cbn -[Regex.group1 Regex.stripQuotes Uri.decodeURIComponent Str.truthy].
  unfold Regex.group1. rewrite Hq, (quoted_closes q name (Hcl q Hq)).
  cbn [Str.truthy].
  rewrite (stripQuotes_quoted q name Hq Hnq).
  unfold Uri.decodeURIComponent. now rewrite (decode_plain name Hp).
Qed.

(** A header that does not hold the word [attachment], in this very
    spelling, gives no name, whatever else it holds. *)
Lemma other_disposition_no_name (d : JsString) :
  Str.includes d "attachment" = false ->
  outcome (dispositionFileName (Some d)) = inr None.
Proof.
  intros H. unfold outcome, dispositionFileName. cbn [orEmpty].
  now rewrite H, andb_false_r.
Qed.

Section FileName.

Variable P : Platform.
Variables (url text : JsString) (files : list File).
Variables (authConfig : AuthConfig) (chatId : JsString).

Local Abbreviation send :=
  (sendToWebhook P url text files authConfig chatId).
Local Abbreviation obtained :=
  (obtains P url text files authConfig chatId).

(** A file sent with the header [attachment; filename=QnameQ], the name
    plain and not empty, is shown under that very name. *)
Theorem header_file_name_is_used (r : Response) (b : Blob)
  (result : JsString) (q : N) (name : JsString) :
  obtained r -> ok r = true -> textual (contentTypeOf r) = false ->
  response_blob r = inr b -> blob_size b <> 0 ->
  reader_error (readAsDataURL P b) = false ->
  reader_result (readAsDataURL P b) = Some result ->
  headers_get r "content-disposition" = Some (attachmentHeader q name) ->
  Regex.quote q = true -> plainName name -> name <> [] ->
  exists content,
    outcome send
    = inr [fileItemValue (orElse (blob_type b) (contentTypeOf r))
             content name].
Proof.
  intros Ho Hok Ht Hb Hs He Hr Hd Hq Hn Hne.
  eexists. 
  rewrite (file_item P url text files authConfig chatId r b result
             (Some name)); try assumption.
  - destruct name; [congruence|reflexivity].
  - rewrite Hd. now apply attachment_header_name.
Qed.

(** A file sent with no Content-Disposition header, or with one that does
    not hold the word [attachment], gets a made-up name:
    [file-], the time of the call, a dot and the extension for its
    type. *)
Theorem other_disposition_name_is_synthesized (r : Response) (b : Blob)
  (result : JsString) :
  obtained r -> ok r = true -> textual (contentTypeOf r) = false ->
  response_blob r = inr b -> blob_size b <> 0 ->
  reader_error (readAsDataURL P b) = false ->
  reader_result (readAsDataURL P b) = Some result ->
  (forall d, headers_get r "content-disposition" = Some d ->
             Str.includes d "attachment" = false) ->
  exists content,
    outcome send
    = inr [fileItemValue (orElse (blob_type b) (contentTypeOf r))
             content
             (synthesizedName (now_toISOString P)
                (orElse (blob_type b) (contentTypeOf r)))].
Proof.
  intros Ho Hok Ht Hb Hs He Hr Hd.
  eexists.
  rewrite (file_item P url text files authConfig chatId r b result None);
    try assumption.
  - reflexivity.
  - destruct (headers_get r "content-disposition") as [d|];
      [|reflexivity].
    apply other_disposition_no_name. now apply Hd.
Qed.

End FileName.

Lemma header_file_name_is_used_witness :
  exists content,
    outcome (Sample.exchange More.reportPdf NoAuth)
    = inr [fileItemValue "application/pdf" content "report.pdf"].
Proof.
  apply (header_file_name_is_used
           (Browser.serving (inr More.reportPdf))
           Sample.endpoint "hi" [] NoAuth "chat-1"
           More.reportPdf More.pdfBlob (Browser.dataURL More.pdfBlob)
           34 "report.pdf").
  - apply serving_obtains.
  - reflexivity.
  - reflexivity.
  - reflexivity.
  - discriminate.
  - reflexivity.
  - reflexivity.
  - reflexivity.
  - reflexivity.
  - repeat constructor; discriminate.
  - discriminate.
Defined.

Lemma other_disposition_name_is_synthesized_witness :
  exists content,
    outcome (Sample.exchange More.inlinePdf NoAuth)
    = inr [fileItemValue "application/pdf" content
             "file-2025-03-09_14-05-59.pdf"].
Proof.
  apply (other_disposition_name_is_synthesized
           (Browser.serving (inr More.inlinePdf))
           Sample.endpoint "hi" [] NoAuth "chat-1"
           More.inlinePdf More.pdfBlob (Browser.dataURL More.pdfBlob)).
  - apply serving_obtains.
  - reflexivity.
  - reflexivity.
  - reflexivity.
  - discriminate.
  - reflexivity.
  - reflexivity.
  - intros d H. injection H as <-. reflexivity.
Defined.

(** ** The extension and the time stamp *)

Lemma lower_not_semicolon (c : N) : c <> 59 -> Str.lower c <> 59.
Proof.
  unfold Str.lower. intros H.
  destruct ((65 <=? c) && (c <=? 90)
            || (192 <=? c) && (c <=? 222) && negb (c =? 215)) eqn:E;
    [|exact H].
  rewrite orb_true_iff, !andb_true_iff, !N.leb_le in E. lia.
Qed.

Lemma lower_idempotent (c : N) : Str.lower (Str.lower c) = Str.lower c.
Proof.
  unfold Str.lower.
  destruct ((65 <=? c) && (c <=? 90)
            || (192 <=? c) && (c <=? 222) && negb (c =? 215)) eqn:E;
    [|now rewrite E].
  rewrite orb_true_iff, !andb_true_iff, !N.leb_le in E.
  replace ((65 <=? c + 32) && (c + 32 <=? 90)
           || (192 <=? c + 32) && (c + 32 <=? 222) && negb (c + 32 =? 215))
    with false; [reflexivity|].
  symmetry. rewrite orb_false_iff, !andb_false_iff, !N.leb_gt. lia.
Qed.

Lemma toLowerCase_idempotent (s : JsString) :
  Str.toLowerCase (Str.toLowerCase s) = Str.toLowerCase s.
Proof.
  unfold Str.toLowerCase. rewrite map_map. apply map_ext.
  apply lower_idempotent.
Qed.

Lemma toLowerCase_no_semicolon (s : JsString) :
  ~ In 59 s -> ~ In 59 (Str.toLowerCase s).
Proof.
  intros H Hin. apply in_map_iff in Hin. destruct Hin as (c & E & Hc).
  destruct (N.eq_dec c 59) as [->|Hn]; [now apply H|].
  now apply (lower_not_semicolon c).
Qed.

(** The lookup sees the type without its parameters and without regard to
    case: what follows the first semicolon is dropped, and upper case is
    lowered.  Stated for code units up to U+00FF, where [Str.lower] is
    [toLowerCase] exactly; a header value and a Blob type hold no
    other. *)
Theorem getExtensionFromMimeType_normalizes (mimeType params : JsString) :
  Base64.latin1 mimeType = true -> Base64.latin1 params = true ->
  ~ In 59 mimeType ->
  getExtensionFromMimeType (mimeType ++ 59 :: params)
  = getExtensionFromMimeType mimeType /\
  getExtensionFromMimeType (Str.toLowerCase mimeType)
  = getExtensionFromMimeType mimeType.
Proof.
  intros _ _ H. split.
  - destruct mimeType as [|c m]; [reflexivity|].
    unfold getExtensionFromMimeType.
    change (Str.truthy ((c :: m) ++ 59 :: params)) with true.
    change (Str.truthy (c :: m)) with true. cbn [negb].
    replace (Str.toLowerCase ((c :: m) ++ 59 :: params))
      with (Str.toLowerCase (c :: m) ++ 59 :: Str.toLowerCase params)
      by (unfold Str.toLowerCase; now rewrite map_app).
    rewrite split_at_separator by now apply toLowerCase_no_semicolon.
    rewrite (split_no_separator (Str.toLowerCase (c :: m)) 59)
      by now apply toLowerCase_no_semicolon.
    reflexivity.
  - unfold getExtensionFromMimeType.
    rewrite toLowerCase_idempotent.
    now destruct mimeType.
Qed.

Lemma split_not_nil (s : JsString) (sep : N) : Str.split s sep <> [].
Proof.
  destruct s as [|c s]; simpl; [discriminate|].
  destruct (c =? sep); [discriminate|].
  destruct (Str.split s sep); discriminate.
Qed.

Lemma hd_split_in (s : JsString) (sep : N) :
  In (hd [] (Str.split s sep)) (Str.split s sep).
Proof.
  pose proof (split_not_nil s sep).
  destruct (Str.split s sep); [congruence | now left].
Qed.

(** A piece of a split holds characters of the string only, and never the
    separator. *)
Lemma split_pieces (s : JsString) (sep : N) (x : JsString) :
  In x (Str.split s sep) ->
  (forall c, In c x -> In c s) /\ ~ In sep x.
Proof.
  revert x. induction s as [|c s IH]; simpl; intros x Hx.
  - destruct Hx as [<-|[]]. split; [intros c []|intros []].
  - destruct (c =? sep) eqn:E.
    + destruct Hx as [<-|Hx]; [split; [intros d []|intros []]|].
      destruct (IH x Hx) as (Hs & Hn). split; [|exact Hn].
      intros d Hd. right. now apply Hs.
    + apply N.eqb_neq in E.
      pose proof (split_not_nil s sep) as Hne.
      destruct (Str.split s sep) as [|h t]; [congruence|].
      destruct Hx as [<-|Hx].
      * destruct (IH h (or_introl eq_refl)) as (Hs & Hn). split.
        -- intros d [<-|Hd]; [now left | right; now apply Hs].
        -- intros [Hd|Hd]; [congruence | now apply Hn].
      * destruct (IH x (or_intror Hx)) as (Hs & Hn). split; [|exact Hn].
        intros d Hd. right. now apply Hs.
Qed.

Lemma own_in (o : Obj.t) (k v : JsString) :
  Obj.own o k = Some v -> In v (map snd o).
Proof.
  induction o as [|[k' v'] o IH]; simpl; [discriminate|].
  destruct (Str.eqb k' k).
  - intros H. injection H as ->. now left.
  - intros H. right. now apply IH.
Qed.

Lemma mimeMap_extensions_clean (e : JsString) :
  In e (map snd mimeMap) -> ~ In 47 e /\ ~ In 59 e /\ ~ In 43 e.
Proof.
  simpl. intros H.
  repeat (destruct H as [<-|H];
          [repeat split; simpl; intuition discriminate|]).
  destruct H.
Qed.

(** An extension this function returns as a string never holds [/], [;]
    or [+]: whatever the type, the made-up file name cannot gain a path
    separator from it. *)
Theorem getExtensionFromMimeType_clean (mimeType e : JsString) :
  getExtensionFromMimeType mimeType = Ext e ->
  ~ In 47 e /\ ~ In 59 e /\ ~ In 43 e.
Proof.
  unfold getExtensionFromMimeType.
  destruct (negb (Str.truthy mimeType)).
  { intros H. injection H as <-. simpl. intuition discriminate. }
  set (n := hd [] (Str.split (Str.toLowerCase mimeType) 59)).
  assert (Hn : ~ In 59 n).
  { apply (split_pieces (Str.toLowerCase mimeType) 59 n). apply hd_split_in. }
  unfold Obj.get.
  destruct (Obj.own mimeMap n) as [v|] eqn:Ho.
  { intros H. injection H as <-.
    apply mimeMap_extensions_clean. now apply (own_in mimeMap n). }
  destruct (existsb (Str.eqb n) Obj.prototypeNames); [discriminate|].
  destruct (nth_error (Str.split n 47) 1) as [subType|] eqn:Hs.
  2:{ intros H. injection H as <-. simpl. intuition discriminate. }
  destruct (Str.truthy subType).
  2:{ intros H. injection H as <-. simpl. intuition discriminate. }
  intros H. injection H as <-.
  apply nth_error_In in Hs.
  destruct (split_pieces n 47 subType Hs) as (Hsub & Hslash).
  destruct (split_pieces subType 43 _ (hd_split_in subType 43))
    as (Hh & Hplus).
  repeat split.
  - intros Hin. apply Hslash. now apply Hh.
  - intros Hin. apply Hn. apply Hsub. now apply Hh.
  - exact Hplus.
Qed.

Lemma replace_first_at (pre post : JsString) (a b : N) :
  ~ In a pre ->
  Str.replace_first (pre ++ a :: post) a b = pre ++ b :: post.
Proof.
  induction pre as [|c pre IH]; simpl; intros H.
  - now rewrite N.eqb_refl.
  - destruct (c =? a) eqn:E.
    + apply N.eqb_eq in E. elim H. now left.
    + rewrite IH; [reflexivity|]. intros Hin. apply H. now right.
Qed.

Lemma replace_first_length (s : JsString) (a b : N) :
  length (Str.replace_first s a b) = length s.
Proof.
  induction s as [|c s IH]; simpl; [reflexivity|].
  destruct (c =? a); simpl; [reflexivity | now rewrite IH].
Qed.

Lemma replace_all_absent (s : JsString) (a b : N) :
  ~ In a s -> Str.replace_all s a b = s.
Proof.
  induction s as [|c s IH]; simpl; intros H; [reflexivity|].
  destruct (c =? a) eqn:E.
  - apply N.eqb_eq in E. elim H. now left.
  - f_equal. apply IH. intros Hin. apply H. now right.
Qed.

Lemma replace_all_app (s t : JsString) (a b : N) :
  Str.replace_all (s ++ t) a b
  = Str.replace_all s a b ++ Str.replace_all t a b.
Proof. apply map_app. Qed.

Lemma iso_seconds_length (date hh mm ss : JsString) :
  length date = 10%nat -> length hh = 2%nat ->
  length mm = 2%nat -> length ss = 2%nat ->
  length (date +++ "T" +++ hh +++ ":" +++ mm +++ ":" +++ ss) = 19%nat.
Proof.
  intros Hd Hh Hm Hs.
  repeat (rewrite length_app || cbn [length app]). lia.
Qed.

(** The time stamp of a made-up file name: at most 19 characters, never a
    colon; and from an ISO string [dateThh:mm:ss...] it is
    [date_hh-mm-ss]. *)
Theorem stamp_is_file_system_safe (iso : JsString) :
  ~ In 58 (stamp iso) /\ (length (stamp iso) <= 19)%nat /\
  forall date hh mm ss rest,
    iso = date +++ "T" +++ hh +++ ":" +++ mm +++ ":" +++ ss +++ rest ->
    length date = 10%nat -> length hh = 2%nat ->
    length mm = 2%nat -> length ss = 2%nat ->
    ~ In 84 date -> ~ In 58 date ->
    ~ In 58 hh -> ~ In 58 mm -> ~ In 58 ss ->
    stamp iso = date +++ "_" +++ hh +++ "-" +++ mm +++ "-" +++ ss.
Proof.
  unfold stamp. split; [|split].
  - unfold Str.replace_all. intros H. apply in_map_iff in H.
    destruct H as (c & E & _).
    destruct (c =? 58) eqn:Ec; [discriminate|].
    apply N.eqb_neq in Ec. congruence.
  - unfold Str.replace_all, Str.slice0.
    rewrite length_map, replace_first_length. apply firstn_le_length.
  - intros date hh mm ss rest -> Hd Hh Hm Hs Ht Hcd Hch Hcm Hcs.
    unfold Str.slice0.
    replace (date +++ "T" +++ hh +++ ":" +++ mm +++ ":" +++ ss +++ rest)
      with ((date +++ "T" +++ hh +++ ":" +++ mm +++ ":" +++ ss) ++ rest)
      by (simpl; now rewrite <- !app_assoc; simpl;
          rewrite <- !app_assoc; simpl; rewrite <- !app_assoc).
    rewrite firstn_app, (iso_seconds_length date hh mm ss) by assumption.
    rewrite firstn_all2
      by (rewrite (iso_seconds_length date hh mm ss) by assumption; lia).
    cbn [firstn Nat.sub]. rewrite app_nil_r. cbn [app].
    rewrite replace_first_at by assumption.
    rewrite replace_all_app, (replace_all_absent date) by assumption.
    simpl.
    rewrite replace_all_app, (replace_all_absent hh) by assumption.
    simpl.
    rewrite replace_all_app, (replace_all_absent mm) by assumption.
    simpl.
    now rewrite replace_all_absent.
Qed.

Lemma getExtensionFromMimeType_normalizes_witness :
  getExtensionFromMimeType "Application/PDF; charset=binary"
  = getExtensionFromMimeType "Application/PDF" /\
  getExtensionFromMimeType (Str.toLowerCase "Application/PDF")
  = getExtensionFromMimeType "Application/PDF".
Proof.
  apply (getExtensionFromMimeType_normalizes "Application/PDF"
           " charset=binary").
  - reflexivity.
  - reflexivity.
  - simpl. intuition discriminate.
Defined.

Lemma getExtensionFromMimeType_clean_witness :
  ~ In 47 "ld" /\ ~ In 59 "ld" /\ ~ In 43 "ld".
Proof.
  apply (getExtensionFromMimeType_clean "application/ld+json; a/b=c").
  reflexivity.
Defined.

Lemma stamp_is_file_system_safe_witness :
  stamp "2025-03-09T14:05:59.123Z" = "2025-03-09_14-05-59".
Proof.
  destruct (stamp_is_file_system_safe "2025-03-09T14:05:59.123Z")
    as (_ & _ & H).
  apply (H "2025-03-09" "14" "05" "59" ".123Z");
    try reflexivity; simpl; intuition discriminate.
Defined.

(** * The callers *)

(** ** [App.tsx]: showing what came back *)

Lemma startsWith_chars (s p : JsString) :
  Str.startsWith s p = true -> forall c, In c p -> In c s.
Proof.
  revert s. induction p as [|d p IH]; intros s H c Hc; [destruct Hc|].
  destruct s as [|e s]; simpl in H; [discriminate|].
  apply andb_true_iff in H. destruct H as (E & H).
  apply N.eqb_eq in E. subst e.
  destruct Hc as [<-|Hc]; [now left | right; now apply (IH s)].
Qed.

Lemma no_colon_no_scheme (s : JsString) : ~ In 58 s -> hasScheme s = false.
Proof.
  intros H. unfold hasScheme.
  assert (T : forall p, In 58 p -> Str.startsWith s p = false).
  { intros p Hp. destruct (Str.startsWith s p) eqn:E; [|reflexivity].
    elim H. now apply (startsWith_chars s p). }
  rewrite !T; [reflexivity | | | |]; simpl; tauto.
Qed.

Lemma alphabet_no_colon (n : N) : Base64.alphabet n <> 58.
Proof.
  unfold Base64.alphabet.
  destruct (n <? 26); [lia|]. destruct (n <? 52); [lia|].
  destruct (n <? 62) eqn:E; [apply N.ltb_lt in E; lia|].
  destruct (n =? 62); lia.
Qed.

Lemma encodeN_no_colon (bs : list N) : ~ In 58 (Base64.encodeN bs).
Proof.
  assert (H : forall n bs, (length bs <= n)%nat ->
                           ~ In 58 (Base64.encodeN bs)).
  { clear bs. induction n as [|n IH]; intros bs Hl.
    - destruct bs; [intros [] | simpl in Hl; lia].
    - destruct bs as [|a [|b [|c rest]]]; simpl.
      + intros [].
      + intros [E|[E|[E|[E|[]]]]];
          try (now apply alphabet_no_colon in E); discriminate.
      + intros [E|[E|[E|[E|[]]]]];
          try (now apply alphabet_no_colon in E); discriminate.
      + intros [E|[E|[E|[E|E]]]];
          try (now apply alphabet_no_colon in E).
        revert E. apply IH. simpl in Hl. lia. }
  now apply (H (length bs)).
Qed.

Lemma encodeN_not_empty (bs : list N) :
  bs <> [] -> Base64.encodeN bs <> [].
Proof. destruct bs as [|a [|b [|c rest]]]; simpl; congruence. Qed.

Lemma getMessageType_not_text (mimeType : JsString) :
  Str.eqb (getMessageType mimeType) "text" = false.
Proof.
  destruct (getMessageType_kinds mimeType) as [<-|[<-|[<-|[<-|[]]]]];
    reflexivity.
Qed.

(** Showing is stable: content that was wrapped into a data URI, or left
    alone, is left alone when shown again; and a text item is never
    wrapped. *)
Theorem finalContent_is_stable (res : BotResponse) :
  finalContent {| br_type := br_type res;
                  br_content := finalContent res;
                  br_fileName := br_fileName res;
                  br_mimeType := br_mimeType res |}
  = finalContent res /\
  (br_type res = "text" -> finalContent res = br_content res).
Proof.
  split.
  - destruct (negb (Str.eqb (br_type res) "text") && given (br_mimeType res))
      eqn:E.
    + destruct (Str.truthy (br_content res)
                && negb (hasScheme (br_content res))) eqn:F.
      * assert (R : finalContent res
                    = "data:" +++ orEmpty (br_mimeType res) +++ ";base64,"
                      +++ br_content res).
        { unfold finalContent. now rewrite E, F. }
        rewrite R. unfold finalContent.
        cbn [br_type br_content br_mimeType]. rewrite E. reflexivity.
      * assert (R : finalContent res = br_content res).
        { unfold finalContent. rewrite E, F. reflexivity. }
        rewrite R. unfold finalContent.
        cbn [br_type br_content br_mimeType]. now rewrite E, F.
    + assert (R : finalContent res = br_content res).
      { unfold finalContent. now rewrite E. }
      rewrite R. unfold finalContent.
      cbn [br_type br_content br_mimeType]. now rewrite E.
  - intros H. unfold finalContent. rewrite H. reflexivity.
Qed.

(** The base64 text of a blob that is not empty, held by an item of a
    type that is not empty, is shown as the data URL of the blob. *)
Lemma finalContent_of_file (mime : JsString) (bytes : list Byte.byte)
  (fileName : option JsString) :
  mime <> [] -> bytes <> [] ->
  finalContent {| br_type := getMessageType mime;
                  br_content := Base64.encode bytes;
                  br_fileName := fileName;
                  br_mimeType := Some mime |}
  = Browser.dataURL {| blob_bytes := bytes; blob_type := mime |}.
Proof.
  intros Hm Hb.
  unfold finalContent. cbn [br_type br_content br_mimeType].
  rewrite getMessageType_not_text.
  rewrite (no_colon_no_scheme (Base64.encode bytes))
    by apply encodeN_no_colon.
  assert (T : Str.truthy (Base64.encode bytes) = true).
  { destruct (Base64.encode bytes) eqn:F; [|reflexivity].
    exfalso. revert F. apply encodeN_not_empty.
    destruct bytes; [congruence | discriminate]. }
  rewrite T. destruct mime; [congruence | reflexivity].
Qed.

Section ShownFile.

Variable P : Platform.
Variables (url text : JsString) (files : list File).
Variables (authConfig : AuthConfig) (chatId : JsString).

Local Abbreviation send :=
  (sendToWebhook P url text files authConfig chatId).
Local Abbreviation obtained :=
  (obtains P url text files authConfig chatId).

(** Service and handler, one after the other.  When the call returns the
    items of a file response whose blob is not empty and has a type of
    its own, without a comma, read by a FileReader that gives the data
    URL of the blob, there is one item; the handler takes it for a
    [BotResponse] whose content is the base64 text of the blob, and shows
    it as the very data URL the FileReader had given. *)
Theorem file_item_is_shown_as_data_uri (r : Response) (b : Blob)
  (items : list JsValue) :
  obtained r -> ok r = true -> textual (contentTypeOf r) = false ->
  response_blob r = inr b -> blob_bytes b <> [] ->
  readAsDataURL P b = Browser.reader b ->
  blob_type b <> [] -> ~ In 44 (blob_type b) ->
  outcome send = inr items ->
  exists res,
    map asBotResponse items = [Some res] /\
    br_type res <> "text" /\
    br_content res = Base64.encode (blob_bytes b) /\
    finalContent res = Browser.dataURL b.
Proof.
  intros Ho Hok Ht Hb Hbytes Hreader Hty Hc.
  destruct (send_obtained P url text files authConfig chatId r Ho)
    as (init & _ & Hrun).
  unfold outcome. rewrite Hrun. unfold try_catch.
  rewrite readResponse_binary by assumption.
  unfold fileResponse, blobToBase64, bind, call, ret.
  rewrite Hb.
  assert (Hs : (blob_size b =? 0) = false).
  { apply N.eqb_neq. unfold blob_size.
    destruct (blob_bytes b); [congruence | discriminate]. }
  rewrite Hs, Hreader. cbn [Browser.reader reader_error reader_result].
  rewrite (dataURL_payload b Hc), dispositionFileName_log.
  destruct (outcome (dispositionFileName _)) as [e|name];
    [rewrite networkCatch_outcome; discriminate|].
  assert (Hm : orElse (blob_type b) (contentTypeOf r) = blob_type b).
  { unfold orElse. destruct (blob_type b); [congruence | reflexivity]. }
  rewrite Hm.
  assert (Hk : Str.eqb (getMessageType (blob_type b)) "text" = false)
    by apply getMessageType_not_text.
  assert (Hshown :
            forall fileName,
              finalContent {| br_type := getMessageType (blob_type b);
                              br_content := Base64.encode (blob_bytes b);
                              br_fileName := fileName;
                              br_mimeType := Some (blob_type b) |}
              = Browser.dataURL b).
  { intros fileName.
    rewrite (finalContent_of_file _ _ fileName Hty Hbytes).
    now destruct b. }
  destruct (given name); simpl; intros Hout; injection Hout as <-;
    (eexists; split; [reflexivity|];
     split; [intros E; cbn [br_type] in E; rewrite E in Hk; discriminate|];
     split; [reflexivity | apply Hshown]).
Qed.

End ShownFile.

Lemma file_item_is_shown_as_data_uri_witness :
  exists res,
    map asBotResponse
      [VObj [("type", VStr "file");
             ("content", VStr "MDEyMzQ1Njc4OQ==");
             ("fileName", VStr "report.pdf");
             ("mimeType", VStr "application/pdf")]]
    = [Some res] /\
    br_type res <> "text" /\
    br_content res = Base64.encode (blob_bytes More.pdfBlob) /\
    finalContent res = Browser.dataURL More.pdfBlob.
Proof.
  apply (file_item_is_shown_as_data_uri
           (Browser.serving (inr More.reportPdf))
           Sample.endpoint "hi" [] NoAuth "chat-1"
           More.reportPdf More.pdfBlob).
  - apply serving_obtains.
  - reflexivity.
  - reflexivity.
  - reflexivity.
  - discriminate.
  - reflexivity.
  - discriminate.
  - simpl. intuition discriminate.
  - reflexivity.
Defined.

Lemma finalContent_is_stable_witness :
  finalContent {| br_type := "text"; br_content := "QUJD";
                  br_fileName := None;
                  br_mimeType := Some "image/png" |}
  = "QUJD".
Proof.
  apply (finalContent_is_stable
           {| br_type := "text"; br_content := "QUJD";
              br_fileName := None; br_mimeType := Some "image/png" |}).
  reflexivity.
Defined.

(** ** [App.tsx] and [ChatInput.tsx]: the local echoes of a turn *)

Lemma digits_inj (u v : Decimal.uint) : Str.digits u = Str.digits v -> u = v.
Proof.
  revert v. induction u; intros []; simpl; intros H;
    try discriminate; try reflexivity;
    injection H as H; f_equal; now apply IHu.
Qed.

Lemma ofNumber_inj (n m : N) : Str.ofNumber n = Str.ofNumber m -> n = m.
Proof.
  intros H. apply DecimalN.Unsigned.to_uint_inj. now apply digits_inj.
Qed.

Lemma digits_no_dash (u : Decimal.uint) : ~ In 45 (Str.digits u).
Proof. induction u; simpl; intuition discriminate. Qed.

(** Two strings cut at a dash that neither head contains are equal only
    piece by piece. *)
Lemma dash_unique (a a' b b' : JsString) :
  ~ In 45 a -> ~ In 45 a' ->
  a ++ 45 :: b = a' ++ 45 :: b' -> a = a' /\ b = b'.
Proof.
  revert a'. induction a as [|c a IH]; intros [|c' a'] Ha Ha' H;
    simpl in H.
  - injection H as ->. now split.
  - injection H as <- _. elim Ha'. now left.
  - injection H as -> _. elim Ha. now left.
  - injection H as <- H.
    destruct (IH a') as (-> & ->); try assumption.
    + intros Hin. apply Ha. now right.
    + intros Hin. apply Ha'. now right.
    + now split.
Qed.

Lemma id_counter (prefix : JsString) (t t' k k' : N) :
  prefix +++ Str.ofNumber t +++ "-" +++ Str.ofNumber k
  = prefix +++ Str.ofNumber t' +++ "-" +++ Str.ofNumber k' ->
  k = k'.
Proof.
  intros H. apply app_inv_head in H.
  apply dash_unique in H; try apply digits_no_dash.
  now apply ofNumber_inj.
Qed.

Lemma fileEchoes_ids (A : Ambient) (timestamp : JsString)
  (files : list File) (counter made : N) (m : Message) :
  In m (fileEchoes A timestamp files counter made) ->
  exists k, counter <= k /\
            msg_id m = "user-file-" +++ Str.ofNumber (date_now A k)
                       +++ "-" +++ Str.ofNumber k.
Proof.
  revert counter made. induction files as [|f r IH]; intros counter made;
    simpl; [intros []|].
  intros [<-|H].
  - exists counter. split; [lia | reflexivity].
  - destruct (IH _ _ H) as (k & Hk & E). exists k. split; [lia | exact E].
Qed.

Lemma fileEchoes_NoDup (A : Ambient) (timestamp : JsString)
  (files : list File) (counter made : N) :
  NoDup (map msg_id (fileEchoes A timestamp files counter made)).
Proof.
  revert counter made. induction files as [|f r IH]; intros counter made;
    simpl; constructor; [|apply IH].
  intros Hin. apply in_map_iff in Hin. destruct Hin as (m & E & Hm).
  destruct (fileEchoes_ids _ _ _ _ _ _ Hm) as (k & Hk & Ek).
  rewrite Ek in E.
  apply (id_counter "user-file-" (date_now A k) (date_now A counter)
           k counter) in E.
  lia.
Qed.

Lemma fileEchoes_length (A : Ambient) (timestamp : JsString)
  (files : list File) (counter made : N) :
  length (fileEchoes A timestamp files counter made) = length files.
Proof.
  revert counter made. induction files as [|f r IH]; intros counter made;
    simpl; [reflexivity | now rewrite IH].
Qed.

Lemma fileEchoes_names (A : Ambient) (timestamp : JsString)
  (files : list File) (counter made : N) :
  map msg_fileName (fileEchoes A timestamp files counter made)
  = map (fun f => Some (file_name f)) files.
Proof.
  revert counter made. induction files as [|f r IH]; intros counter made;
    simpl; [reflexivity | now rewrite IH].
Qed.

(** The ids of the echoes of one turn are pairwise distinct, whatever the
    clock reads while they are made: the counter in each id sees to
    it. *)
Theorem userMessages_ids_distinct (A : Ambient) (text : JsString)
  (files : list File) (timestamp : JsString) :
  NoDup (map msg_id (userMessages A text files timestamp)).
Proof.
  unfold userMessages.
  destruct (Str.truthy (Str.trim text)); [|apply fileEchoes_NoDup].
  cbn [map msg_id]. constructor; [|apply fileEchoes_NoDup].
  intros Hin. apply in_map_iff in Hin. destruct Hin as (m & E & Hm).
  destruct (fileEchoes_ids _ _ _ _ _ _ Hm) as (k & _ & Ek).
  rewrite Ek in E. discriminate.
Qed.

(** Whatever the input lets through is echoed: a turn that [handleSend]
    hands on has some text that is not blank or some file, so the
    handler shows at least one user message for it: one for the text if
    it is not blank, then one per file, in order and under the file's
    name. *)
Theorem sent_turn_is_echoed (A : Ambient) (disabled : bool)
  (text : JsString) (files : list File) (timestamp : JsString)
  (sent : JsString * list File) :
  handleSend disabled text files = Some sent ->
  sent = (text, files) /\ disabled = false /\
  userMessages A text files timestamp <> [] /\
  length (userMessages A text files timestamp)
  = ((if Str.truthy (Str.trim text) then 1 else 0) + length files)%nat /\
  map msg_fileName (userMessages A text files timestamp)
  = (if Str.truthy (Str.trim text) then [None] else [])
    ++ map (fun f => Some (file_name f)) files.
Proof.
  unfold handleSend, userMessages.
  destruct disabled; [discriminate|]. cbn [orb].
  destruct (Str.truthy (Str.trim text)) eqn:T; cbn [negb andb].
  - intros H. injection H as <-. repeat split; try discriminate.
    + simpl. now rewrite fileEchoes_length.
    + simpl. now rewrite fileEchoes_names.
  - destruct files as [|f r]; [discriminate|].
    intros H. injection H as <-. repeat split; try discriminate.
    + now rewrite fileEchoes_length.
    + now rewrite fileEchoes_names.
Qed.

(** An input that is disabled, or holds only blank text and no file,
    sends nothing. *)
Lemma handleSend_nothing (disabled : bool) (text : JsString)
  (files : list File) :
  handleSend disabled text files = None <->
  disabled = true \/ (blank text /\ files = []).
Proof.
  unfold handleSend. rewrite <- truthy_trim.
  destruct disabled; cbn [orb]; [intuition discriminate|].
  destruct (Str.truthy (Str.trim text)); cbn [negb andb].
  - intuition discriminate.
  - destruct files; simpl; intuition discriminate.
Qed.

Lemma sent_turn_is_echoed_witness :
  userMessages More.ambient "  " Sample.threeFiles "2025-03-09T14:05:59.123Z"
  <> [] /\
  length (userMessages More.ambient "  " Sample.threeFiles
            "2025-03-09T14:05:59.123Z") = 3%nat.
Proof.
  destruct (sent_turn_is_echoed More.ambient false "  " Sample.threeFiles
              "2025-03-09T14:05:59.123Z" ("  ", Sample.threeFiles) eq_refl)
    as (_ & _ & H & L & _).
  split; [exact H | exact L].
Defined.

(** ** [ChatInput.tsx]: removing an attachment *)

Lemma filterIndex_spec (files : list File) (i index : nat) :
  filterIndex files i index
  = if Nat.ltb index i then files
    else firstn (index - i) files ++ skipn (S (index - i)) files.
Proof.
  revert i. induction files as [|f r IH]; intros i; simpl.
  - destruct (Nat.ltb index i); [reflexivity|].
    now rewrite firstn_nil.
  - rewrite IH. destruct (Nat.eqb i index) eqn:E.
    + apply Nat.eqb_eq in E. subst i. cbn [negb].
      replace (Nat.ltb index (S index)) with true
        by (symmetry; apply Nat.ltb_lt; lia).
      replace (Nat.ltb index index) with false
        by (symmetry; apply Nat.ltb_ge; lia).
      now rewrite Nat.sub_diag.
    + apply Nat.eqb_neq in E. cbn [negb].
      destruct (Nat.ltb index i) eqn:L.
      * apply Nat.ltb_lt in L.
        replace (Nat.ltb index (S i)) with true
          by (symmetry; apply Nat.ltb_lt; lia).
        reflexivity.
      * apply Nat.ltb_ge in L.
        replace (Nat.ltb index (S i)) with false
          by (symmetry; apply Nat.ltb_ge; lia).
        replace (index - i)%nat with (S (index - S i)) by lia.
        reflexivity.
Qed.

(** Removing the attachment at a position drops that one and keeps the
    others in order; a position past the end removes nothing. *)
Theorem removeFile_drops_one (files : list File) (index : nat) :
  removeFile files index
  = firstn index files ++ skipn (S index) files /\
  ((index < length files)%nat ->
   S (length (removeFile files index)) = length files) /\
  ((length files <= index)%nat -> removeFile files index = files).
Proof.
  unfold removeFile. rewrite filterIndex_spec. cbn [Nat.ltb Nat.leb].
  rewrite Nat.sub_0_r. split; [reflexivity|]. split.
  - intros H. rewrite length_app, length_firstn, length_skipn. lia.
  - intros H. rewrite firstn_all2 by assumption.
    rewrite skipn_all2 by lia. apply app_nil_r.
Qed.

Lemma removeFile_drops_one_witness :
  S (length (removeFile Sample.threeFiles 1)) = 3%nat /\
  removeFile Sample.threeFiles 3 = Sample.threeFiles.
Proof.
  destruct (removeFile_drops_one Sample.threeFiles 1) as (_ & H & _).
  destruct (removeFile_drops_one Sample.threeFiles 3) as (_ & _ & K).
  split; [apply H; simpl; lia | apply K; simpl; lia].
Defined.

(** ** [SettingsModal.tsx]: saving the settings *)

Lemma trimStart_suffix (s : JsString) :
  exists pre, s = pre ++ Str.trimStart s.
Proof.
  induction s as [|c s (pre & IH)]; simpl.
  - now exists [].
  - destruct (Str.isWhiteSpace c).
    + exists (c :: pre). simpl. now f_equal.
    + now exists [].
Qed.

Lemma trimStart_fixed (s : JsString) :
  (forall c r, s = c :: r -> Str.isWhiteSpace c = false) ->
  Str.trimStart s = s.
Proof.
  destruct s as [|c r]; intros H; simpl; [reflexivity|].
  now rewrite (H c r eq_refl).
Qed.

Lemma trim_last (s r : JsString) (c : N) :
  Str.trim s = r ++ [c] -> Str.isWhiteSpace c = false.
Proof.
  unfold Str.trim, Str.trimEnd. intros H.
  apply (f_equal (@rev N)) in H.
  rewrite rev_involutive, rev_app_distr in H. simpl in H.
  now apply trimStart_head in H.
Qed.

Lemma trim_first (s r : JsString) (c : N) :
  Str.trim s = c :: r -> Str.isWhiteSpace c = false.
Proof.
  unfold Str.trim, Str.trimEnd. intros H.
  destruct (trimStart_suffix (rev (Str.trimStart s))) as (pre & E).
  apply (f_equal (@rev N)) in E.
  rewrite rev_involutive, rev_app_distr, H in E.
  simpl in E. now apply trimStart_head in E.
Qed.

Lemma trim_idempotent (s : JsString) : Str.trim (Str.trim s) = Str.trim s.
Proof.
  assert (S1 : Str.trimStart (Str.trim s) = Str.trim s).
  { apply trimStart_fixed. intros c r. apply trim_first. }
  unfold Str.trim at 1. rewrite S1. unfold Str.trimEnd.
  assert (S2 : Str.trimStart (rev (Str.trim s)) = rev (Str.trim s)).
  { apply trimStart_fixed. intros c r E.
    apply (trim_last s (rev r) c).
    rewrite <- (rev_involutive (Str.trim s)), E. reflexivity. }
  rewrite S2. apply rev_involutive.
Qed.

(** Saving hands on the endpoint trimmed, with the configuration as it
    is, and only when something is left of the endpoint: the saved URL is
    never empty and neither starts nor ends with white space, so that the
    handler's test for a missing URL passes and the request goes to the
    URL as typed, less the surrounding blanks.  A blank endpoint saves
    nothing. *)
Theorem handleSave_trims (url : JsString) (authConfig : AuthConfig) :
  (forall saved config,
      handleSave url authConfig = Some (saved, config) ->
      config = authConfig /\ saved = Str.trim url /\
      Str.truthy saved = true /\ Str.trim saved = saved /\
      (forall c r, saved = c :: r -> Str.isWhiteSpace c = false) /\
      (forall r c, saved = r ++ [c] -> Str.isWhiteSpace c = false)) /\
  (handleSave url authConfig = None <-> blank url).
Proof.
  unfold handleSave. split.
  - intros saved config.
    destruct (Str.truthy (Str.trim url)) eqn:T; [|discriminate].
    intros H. injection H as <- <-.
    repeat split; try assumption.
    + apply trim_idempotent.
    + intros c r. apply trim_first.
    + intros r c. apply trim_last.
  - rewrite <- truthy_trim.
    destruct (Str.truthy (Str.trim url)); intuition discriminate.
Qed.

Lemma handleSave_trims_witness :
  Str.truthy "https://n8n.example/webhook/chat" = true /\
  Str.trim "https://n8n.example/webhook/chat"
  = "https://n8n.example/webhook/chat".
Proof.
  destruct (handleSave_trims "  https://n8n.example/webhook/chat " NoAuth)
    as (H & _).
  destruct (H "https://n8n.example/webhook/chat" NoAuth eq_refl)
    as (_ & _ & T & I & _).
  split; [exact T | exact I].
Defined.

(** Choosing an authentication type starts it afresh: whatever was
    entered before is gone, and until details are entered the request
    carries no header (and [btoa] has nothing to throw on). *)
Theorem auth_type_change_clears_headers (newType : AuthType) :
  authHeaders (handleAuthTypeChange newType) = inr [].
Proof. now destruct newType. Qed.

(** ** [service-worker.ts] *)

(** The request of the service is a POST, so the worker leaves it alone:
    it is neither looked up in the cache nor fetched by the worker, nor
    is its answer ever stored. *)
Theorem webhook_request_bypasses_worker
  (cached : SwRequest -> option SwResponse)
  (network : SwRequest -> JsExn + SwResponse)
  (url text : JsString) (files : list File) (authConfig : AuthConfig)
  (chatId : JsString) (init : Request) :
  issued url text files authConfig chatId = Some init ->
  onFetch cached network (seenByWorker init) = (PassThrough, []).
Proof.
  unfold issued. destruct (authHeaders authConfig); [discriminate|].
  intros H. injection H as <-. reflexivity.
Qed.

(** What the worker stores and when it goes to the network: the network
    is asked only for a GET the cache does not hold, and a response is
    stored only if it came from the network with status 200 for such a
    GET whose URL does not hold [/webhook/]; it is then also the answer
    given.  A cached response is answered as it is. *)
Theorem worker_caches_fresh_200_only
  (cached : SwRequest -> option SwResponse)
  (network : SwRequest -> JsExn + SwResponse) (request : SwRequest) :
  let (handled, effects) := onFetch cached network request in
  (forall q, In (NetworkFetch q) effects ->
             q = request /\ sw_method request = "GET" /\
             cached request = None) /\
  (forall q response,
      In (CachePut q response) effects ->
      q = request /\ sw_method request = "GET" /\
      cached request = None /\ network request = inr response /\
      sw_status response = 200 /\
      Str.includes (sw_url request) "/webhook/" = false /\
      handled = RespondWith (Some response)) /\
  (forall response,
      sw_method request = "GET" -> cached request = Some response ->
      handled = RespondWith (Some response) /\
      effects = [CachesMatch request]).
Proof.
  unfold onFetch.
  destruct (Str.eqb (sw_method request) "GET") eqn:M; cbn [negb].
  2:{ split; [intros q []|]. split; [intros q response []|].
      intros response E. rewrite E in M. discriminate. }
  apply eqb_eq in M.
  destruct (cached request) as [c|] eqn:C.
  { split; [intros q [E|[]]; discriminate|].
    split; [intros q response [E|[]]; discriminate|].
    intros response _ E. now injection E as ->. }
  assert (F : forall q effects,
             In (NetworkFetch q)
               (CachesMatch request :: NetworkFetch request :: effects) ->
             (forall p, ~ In (NetworkFetch p) effects) ->
             q = request /\ sw_method request = "GET" /\
             None = (None : option SwResponse)).
  { intros q effects [E|[E|E]] Hn; [discriminate | | now elim (Hn q)].
    injection E as <-. now repeat split. }
  destruct (network request) as [e|nr] eqn:Nw.
  { split; [intros q Hq; apply (F q [] Hq); now intros p []|].
    split; [intros q response [E|[E|[]]]; discriminate | discriminate]. }
  destruct (sw_status nr =? 200) eqn:S; cbn [negb].
  2:{ split; [intros q Hq; apply (F q [] Hq); now intros p []|].
      split; [intros q response [E|[E|[]]]; discriminate | discriminate]. }
  apply N.eqb_eq in S.
  destruct (Str.includes (sw_url request) "/webhook/") eqn:W; cbn [negb].
  { split; [intros q Hq; apply (F q [] Hq); now intros p []|].
    split; [intros q response [E|[E|[]]]; discriminate | discriminate]. }
  split; [|split].
  - intros q Hq. apply (F q _ Hq). intros p [E|[]]. discriminate.
  - intros q response [E|[E|[E|[]]]]; try discriminate.
    injection E as <- <-. now repeat split.
  - discriminate.
Qed.

Lemma existsb_whitelist (name : JsString) :
  existsb (Str.eqb name) [CACHE_NAME] = true <-> name = CACHE_NAME.
Proof.
  cbn [existsb]. rewrite orb_false_r. apply eqb_eq.
Qed.

(** Activation deletes every cache but the current one, and never the
    current one. *)
Theorem activate_keeps_current_cache (cacheNames : list JsString)
  (name : JsString) :
  (In name (onActivate cacheNames) <->
   In name cacheNames /\ name <> CACHE_NAME) /\
  ~ In CACHE_NAME (onActivate cacheNames).
Proof.
  assert (H : forall n, In n (onActivate cacheNames) <->
                        In n cacheNames /\ n <> CACHE_NAME).
  { intros n. unfold onActivate. rewrite filter_In, negb_true_iff.
    rewrite <- existsb_whitelist.
    destruct (existsb (Str.eqb n) [CACHE_NAME]); intuition congruence. }
  split; [apply H|]. intros Hin. apply H in Hin. now destruct Hin.
Qed.

Lemma webhook_request_bypasses_worker_witness :
  onFetch (fun _ => Some {| sw_status := 200; sw_body := "stale" |})
    (fun _ => inl (Exn TypeError "offline"))
    {| sw_method := "POST"; sw_url := Sample.endpoint |}
  = (PassThrough, []).
Proof.
  apply (webhook_request_bypasses_worker _ _
           Sample.endpoint "hi" [] NoAuth "chat-1"
           (request Sample.endpoint "hi" [] "chat-1" [])).
  reflexivity.
Defined.

Lemma worker_caches_fresh_200_only_witness :
  sw_status {| sw_status := 200; sw_body := "<html>" |} = 200 /\
  Str.includes "https://chat.example/index.html" "/webhook/" = false.
Proof.
  pose proof (worker_caches_fresh_200_only
                (fun _ => None)
                (fun _ => inr {| sw_status := 200; sw_body := "<html>" |})
                {| sw_method := "GET";
                   sw_url := "https://chat.example/index.html" |}) as H.
  cbv beta iota delta [onFetch] in H. cbn in H.
  destruct H as (_ & H & _).
  destruct (H {| sw_method := "GET";
                 sw_url := "https://chat.example/index.html" |}
              {| sw_status := 200; sw_body := "<html>" |})
    as (_ & _ & _ & _ & S & W & _).
  - right. right. now left.
  - split; [exact S | exact W].
Defined.

Lemma activate_keeps_current_cache_witness :
  In "n8n-webhook-chat-cache-v0"
    (onActivate ["n8n-webhook-chat-cache-v0"; CACHE_NAME]).
Proof.
  apply (activate_keeps_current_cache
           ["n8n-webhook-chat-cache-v0"; CACHE_NAME]
           "n8n-webhook-chat-cache-v0").
  split; [now left | discriminate].
Defined.

(** ** Instances of the earlier lemmas *)

Lemma text_path_succeeds_witness :
  exists items,
    outcome (Sample.exchange (Browser.json Sample.fooBody) NoAuth)
    = inr items.
Proof.
  apply (text_path_succeeds _ _ _ _ _ _ (Browser.json Sample.fooBody)
           Sample.fooBody).
  - apply serving_obtains.
  - reflexivity.
  - reflexivity.
  - reflexivity.
Defined.

Lemma unrecognised_shape_echoes_body_witness :
  outcome (Sample.exchange (Browser.json "null") NoAuth)
  = inr [textItem "null"].
Proof.
  apply (unrecognised_shape_echoes_body _ _ _ _ _ _
           (Browser.json "null") "null" VNull).
  - apply serving_obtains.
  - reflexivity.
  - reflexivity.
  - reflexivity.
  - apply not_blank_head. reflexivity.
  - reflexivity.
  - discriminate.
  - reflexivity.
  - discriminate.
Defined.

Lemma authHeaders_basic_witness :
  authHeaders (BasicAuth (Some "token") None)
  = inr [("Authorization", "Basic dG9rZW46")].
Proof.
  apply (authHeaders_basic (Some "token") None). reflexivity.
Defined.

Lemma authHeaders_header_witness :
  authHeaders (HeaderAuth (Some "X-API-Key") (Some "k1"))
  = inr [("X-API-Key", "k1")].
Proof.
  apply (authHeaders_header (Some "X-API-Key") (Some "k1")). discriminate.
Defined.
